(** * CLRS baseline models ([clrs/_src/baselines.py])

    A shallow embedding of the training / checkpoint orchestration of
    [BaselineModel] and [BaselineModelChunked], and the properties of it
    that the specification states.

    The numeric backend (arrays, the network, the losses, the optimizer,
    automatic differentiation, pickling) is opaque to [baselines.py]; it
    enters the development as type classes, one per interface.  What
    [baselines.py] itself does -- which provider is called with which
    arguments, how the loss terms are accumulated, which parameters an
    update touches, what a checkpoint holds and how it is merged back --
    is modelled from the source, statement by statement. *)

From stdpp Require Import gmap strings list fin_maps.
From Stdlib Require Import ZArith Ascii.
From Equations Require Equations.

Open Scope string_scope.
Open Scope list_scope.

(** ** Python exceptions and the error monad *)

Inductive PyError : Type :=
  | ValueError (msg : string)
  | AttributeError (msg : string)
  | TypeError (msg : string)
  | KeyError (key : string)
  | IndexError
  | AssertionError
  | NotImplementedError
  | FileNotFoundError (path : string)
  | FileExistsError (path : string)
  | IsADirectoryError (path : string)
  | UnpicklingError.

Inductive Result (A : Type) : Type :=
  | Ok (a : A)
  | Raise (e : PyError).
Arguments Ok {A} a.
Arguments Raise {A} e.

#[global] Instance Result_ret : MRet Result := λ A a, Ok a.
#[global] Instance Result_bind : MBind Result := λ A B k r,
  match r with
  | Ok a => k a
  | Raise e => Raise e
  end.
#[global] Instance Result_fmap : FMap Result := λ A B f r,
  match r with
  | Ok a => Ok (f a)
  | Raise e => Raise e
  end.

(** [for x in xs: acc = body(acc, x)], where the body may raise. *)
Fixpoint for_each {A S} (body : S → A → Result S) (acc : S) (xs : list A) : Result S :=
  match xs with
  | [] => Ok acc
  | x :: rest => acc' ← body acc x; for_each body acc' rest
  end.

(** [d[key]] on a Python dict. *)
Definition getitem {V} (d : gmap string V) (key : string) : Result V :=
  match d !! key with
  | Some v => Ok v
  | None => Raise (KeyError key)
  end.

(** [t[i]] on a tuple, for a non-negative literal [i]. *)
Definition tuple_index {A} (t : list A) (i : nat) : Result A :=
  match t !! i with
  | Some x => Ok x
  | None => Raise IndexError
  end.

(** [t[-1]] on a tuple. *)
Definition tuple_last {A} (t : list A) : Result A :=
  match last t with
  | Some x => Ok x
  | None => Raise IndexError
  end.

(** [needle in haystack] on Python strings. *)
Fixpoint str_contains (needle haystack : string) : bool :=
  String.prefix needle haystack ||
  match haystack with
  | EmptyString => false
  | String _ rest => str_contains needle rest
  end.

(** [s.endswith('/')]. *)
Fixpoint endswith_sep (s : string) : bool :=
  match s with
  | EmptyString => false
  | String c EmptyString => bool_decide (c = "/"%char)
  | String _ rest => endswith_sep rest
  end.

(** [os.path.join(a, b)] (posixpath): an absolute [b] replaces [a]. *)
Definition os_path_join (a b : string) : string :=
  if String.prefix "/" b then b
  else if bool_decide (a = "") || endswith_sep a then (a ++ b)%string
  else (a ++ "/" ++ b)%string.

(** ** The numeric backend

    [chex.Array] is opaque apart from its [shape] and the addition the
    optimizer applies to it; loss values are scalars that are only ever
    added up; hyper-parameters, PRNG keys, the algorithm's spec, the
    optimizer state, the diff predictions and the chunked network's
    recurrent state are passed through untouched. *)

Class Backend := {
  Tensor : Type;
  shape : Tensor → list nat;
  tensor_add : Tensor → Tensor → Tensor;
  Scalar : Type;
  scalar_zero : Scalar;
  scalar_add : Scalar → Scalar → Scalar;
  Float : Type;
  Spec : Type;
  PRNGKey : Type;
  PRNGKey_of_seed : Z → PRNGKey;
  OptState : Type;
  DiffLogits : Type;
  GtDiffs : Type;
  MessagePassingStateChunked : Type;
  empty_mp_state : MessagePassingStateChunked;
}.

(** ** [haiku.data_structures] and [optax.apply_updates]

    [hk.Params] is a two-level mapping: module name, then parameter name. *)

Module hk.
Section data_structures.
Context {A : Type}.

(** The leaves of a structure, keyed by (module name, parameter name). *)
Definition traverse (structure : gmap string (gmap string A)) : gmap (string * string) A :=
  map_uncurry (M1:=gmap string) (M2:=gmap string) (M12:=gmap (string * string)) structure.

(** [out[module_name][name] = value] for every leaf, on a
    [defaultdict(dict)]: a module appears only once it holds a leaf. *)
Definition to_haiku_dict (leaves : gmap (string * string) A) : gmap string (gmap string A) :=
  map_curry (M1:=gmap string) (M2:=gmap string) (M12:=gmap (string * string)) leaves.

Definition filter (predicate : string → string → A → bool)
    (structure : gmap string (gmap string A)) : gmap string (gmap string A) :=
  to_haiku_dict
    (base.filter (λ leaf, predicate leaf.1.1 leaf.1.2 leaf.2 = true) (traverse structure)).

(** [merge] of several structures: leaves of later structures take
    precedence. *)
Definition merge (structures : list (gmap string (gmap string A))) : gmap string (gmap string A) :=
  to_haiku_dict (foldl (λ out structure, traverse structure ∪ out) ∅ structures).

(** One parameter of a structure, if present. *)
Definition leaf (structure : gmap string (gmap string A)) (module_name name : string) : option A :=
  structure !! module_name ≫= (.!! name).

(** No module without a parameter. *)
Definition no_empty_module (structure : gmap string (gmap string A)) : Prop :=
  ∀ module_name bundle, structure !! module_name = Some bundle → bundle ≠ ∅.

(** Iterating over a structure that is [None]. *)
Definition as_structure (structure : option (gmap string (gmap string A)))
    : Result (gmap string (gmap string A)) :=
  match structure with
  | Some s => Ok s
  | None => Raise (TypeError "'NoneType' object is not iterable")
  end.

End data_structures.
End hk.

Abbreviation Params := (gmap string (gmap string Tensor)).

Module optax.
Section optax.
Context `{Backend}.

(** The pytree structure of a mapping: its module names, each with its
    parameter names. *)
Definition tree_structure (tree : Params) : gmap string (gset string) :=
  dom <$> tree.

(** [jax.tree_util.tree_map(lambda p, u: p + u, params, updates)]: the two
    trees must have the same structure. *)
Definition apply_updates (params updates : Params) : Result Params :=
  if decide (tree_structure params = tree_structure updates)
  then Ok (map_zip_with (M:=gmap string) (map_zip_with (M:=gmap string) tensor_add) params updates)
  else Raise (ValueError "tree structures do not match").

(** [optax.GradientTransformation]: an optimizer's [init] and [update]. *)
Record GradientTransformation := {
  init : Params → OptState;
  update : Params → OptState → Params * OptState;
}.

End optax.
End optax.

(** [optax.adam], [jax.grad]: the optimizer and automatic differentiation. *)
Class Optimizer `{Backend} := {
  adam : Float → optax.GradientTransformation;
  jax_grad : (Params → Result Scalar) → Params → Params;
}.

Module jax.
Section jax.
Context `{Optimizer}.

(** [jax.value_and_grad(fun)(x, ...)], differentiating in the first argument. *)
Definition value_and_grad (fun_ : Params → Result Scalar) (x : Params)
    : Result (Scalar * Params) :=
  value ← fun_ x;
  Ok (value, jax_grad fun_ x).

(** [jax.value_and_grad(fun, has_aux=True)]: [fun] returns the value to
    differentiate together with auxiliary data, which is handed back. *)
Definition value_and_grad_aux {Aux} (fun_ : Params → Result (Scalar * Aux)) (x : Params)
    : Result ((Scalar * Aux) * Params) :=
  value_aux ← fun_ x;
  Ok (value_aux, jax_grad (λ x, fst <$> fun_ x) x).

End jax.
End jax.

(** ** The benchmark's data ([specs], [probing], [samplers]) *)

Module specs.

(** Modelled from the spec: [specs.Location] is not among the sources; the
    spec gives each field a location, one of node, edge and graph. *)
Inductive Location : Type := NODE | EDGE | GRAPH.

#[global] Instance Location_eq_dec : EqDecision Location.
Proof. solve_decision. Defined.

End specs.

Module probing.
Section probing.
Context `{Backend}.

(** Modelled from the spec: [probing.DataPoint] is not among the sources; a
    named field with its location, its type and its tensor. *)
Record DataPoint := {
  name : string;
  location : specs.Location;
  type_ : string;
  data : Tensor;
}.

End probing.
End probing.

Module samplers.
Section samplers.
Context `{Backend}.

(** Modelled from the spec: the sampler's tuples are not among the sources.
    Features hold the named inputs and hints with the per-sample lengths;
    chunked features carry the [is_first] / [is_last] markers instead. *)
Record Features := {
  Features_inputs : list probing.DataPoint;
  Features_hints : list probing.DataPoint;
  lengths : Tensor;
}.

Record FeaturesChunked := {
  FeaturesChunked_inputs : list probing.DataPoint;
  FeaturesChunked_hints : list probing.DataPoint;
  is_first : Tensor;
  is_last : Tensor;
}.

(** [features.inputs] and [features.hints], whichever tuple [features] is. *)
Class FeaturesLike (F : Type) := {
  inputs : F → list probing.DataPoint;
  hints : F → list probing.DataPoint;
}.

#[global] Instance Features_like : FeaturesLike Features :=
  {| inputs := Features_inputs; hints := Features_hints |}.
#[global] Instance FeaturesChunked_like : FeaturesLike FeaturesChunked :=
  {| inputs := FeaturesChunked_inputs; hints := FeaturesChunked_hints |}.

(** A feedback (and the dummy trajectory handed to the constructor): the
    features and the ground-truth outputs. *)
Record Feedback (F : Type) := {
  features : F;
  outputs : list probing.DataPoint;
}.

End samplers.
Arguments features {_ _} _.
Arguments outputs {_ _} _.
End samplers.

(** ** The network ([nets]), the losses and the decoders *)

Module nets.
Section nets.
Context `{Backend}.

(** The arguments [_use_net] hands to [nets.Net] / [nets.NetChunked]. *)
Record Config := {
  spec : Spec;
  hidden_dim : Z;
  encode_hints : bool;
  decode_hints : bool;
  decode_diffs : bool;
  kind : string;
  use_lstm : bool;
  dropout_prob : Float;
  nb_heads : Z;
  nb_dims : gmap string nat;
}.

(** Which network [hk.transform] wraps. *)
Inductive Transformed : Type :=
  | Net (config : Config)
  | NetChunked (config : Config).

Definition config_of (net_fn : Transformed) : Config :=
  match net_fn with Net c | NetChunked c => c end.

(** What an application of the network returns: the output predictions by
    field name, the hint predictions, the diff logits and the ground-truth
    diffs. The full-trajectory network gives one mapping of hint
    predictions per step, the chunked one a single mapping. *)
Definition Preds : Type :=
  gmap string Tensor * list (gmap string Tensor) * DiffLogits * GtDiffs.
Definition PredsChunked : Type :=
  gmap string Tensor * gmap string Tensor * DiffLogits * GtDiffs.

End nets.
End nets.

(** The network function provider: [hk.transform(_use_net).init] and
    [.apply] for the two networks. The boolean after the features is the
    positional toggle [baselines.py] passes; the chunked network also takes
    the recurrent state and the keyword [init_mp_state]. *)
Class Provider `{Backend} := {
  Net_init : nets.Config → PRNGKey → samplers.Features → bool → Params;
  Net_apply : nets.Config → Params → PRNGKey → samplers.Features → bool → nets.Preds;
  NetChunked_init : nets.Config → PRNGKey → samplers.FeaturesChunked →
    MessagePassingStateChunked → bool → bool → Params;
  NetChunked_apply : nets.Config → Params → PRNGKey → samplers.FeaturesChunked →
    MessagePassingStateChunked → bool → bool → nets.PredsChunked * MessagePassingStateChunked;
  (* decoders.postprocess *)
  postprocess : Spec → gmap string Tensor → gmap string probing.DataPoint;
}.

(** The loss aggregator ([losses]). *)
Class Losses `{Backend} := {
  output_loss : probing.DataPoint → Tensor → nat → Scalar;
  diff_loss : DiffLogits → GtDiffs → Tensor → Scalar;
  hint_loss : probing.DataPoint → list Tensor → GtDiffs → Tensor → nat → bool → Scalar;
  diff_loss_verbose : DiffLogits → GtDiffs → Tensor → gmap string Scalar;
  hint_loss_verbose :
    probing.DataPoint → list (gmap string Tensor) → GtDiffs → Tensor → nat → bool →
    gmap string Scalar;
  output_loss_chunked : probing.DataPoint → Tensor → Tensor → nat → Scalar;
  diff_loss_chunked : DiffLogits → GtDiffs → Tensor → Scalar;
  hint_loss_chunked : probing.DataPoint → Tensor → GtDiffs → Tensor → nat → bool → Scalar;
}.

(** ** Module-level helpers of [baselines.py] *)

Section helpers.
Context `{Backend}.

Definition is_node_or_edge (inp : probing.DataPoint) : bool :=
  bool_decide (probing.location inp ∈ [specs.NODE; specs.EDGE]).

(** The loop of [_nb_nodes] over [feedback.features.inputs]. *)
Fixpoint _nb_nodes_scan (inps : list probing.DataPoint) (is_chunked : bool) : Result nat :=
  match inps with
  | [] => Raise AssertionError
  | inp :: rest =>
      if is_node_or_edge inp then
        if is_chunked
        then tuple_index (shape (probing.data inp)) 2
        else tuple_index (shape (probing.data inp)) 1
      else _nb_nodes_scan rest is_chunked
  end.

Definition _nb_nodes `{!samplers.FeaturesLike F} (feedback : samplers.Feedback F)
    (is_chunked : bool) : Result nat :=
  _nb_nodes_scan (samplers.inputs (samplers.features feedback)) is_chunked.

Definition _filter_processor (params : Params) : Params :=
  hk.filter (λ module_name n v, str_contains "construct_processor" module_name) params.

End helpers.

(** ** The checkpoint store: the file system and [pickle] *)

Class Pickle `{Backend} := {
  Blob : Type;
  (* What [save_model] pickles: [{'params': ..., 'opt_state': ...}]. *)
  pickle_dump : option Params * option OptState → Blob;
  (* [pickle.load] followed by the two item lookups; a blob that does not
     hold such a record raises. *)
  pickle_load : Blob → Result (option Params * option OptState);
}.

Module os.
Section os.
Context `{Pickle}.

(** The part of the file system checkpoints live in: the directories that
    exist and the contents of the files. Intermediate directories and
    permissions are not tracked. *)
Record FileSystem := {
  dirs : gset string;
  files : gmap string Blob;
}.

(** [os.makedirs(name, exist_ok=True)]. *)
Definition makedirs (fs : FileSystem) (name : string) : Result FileSystem :=
  if bool_decide (name = "") then Raise (FileNotFoundError name)
  else if bool_decide (name ∈ dom (files fs)) then Raise (FileExistsError name)
  else Ok {| dirs := {[name]} ∪ dirs fs; files := files fs |}.

(** [with open(path, 'wb') as f: f.write(blob)]. *)
Definition write_file (fs : FileSystem) (path : string) (blob : Blob) : Result FileSystem :=
  if bool_decide (path ∈ dirs fs) then Raise (IsADirectoryError path)
  else Ok {| dirs := dirs fs; files := <[path := blob]> (files fs) |}.

(** [with open(path, 'rb') as f: f.read()]. *)
Definition read_file (fs : FileSystem) (path : string) : Result Blob :=
  if bool_decide (path ∈ dirs fs) then Raise (IsADirectoryError path)
  else match files fs !! path with
       | Some blob => Ok blob
       | None => Raise (FileNotFoundError path)
       end.

End os.
End os.

(** ** The model object

    One record for the attributes of a [BaselineModel]; a
    [BaselineModelChunked] has the attribute [mp_state] as well, unset
    ([None]) until [init]. *)

Section self.
Context `{Backend}.

Record Self := {
  spec : Spec;
  decode_hints : bool;
  decode_diffs : bool;
  checkpoint_path : string;
  name : string;
  _freeze_processor : bool;
  opt : optax.GradientTransformation;
  nb_dims : gmap string nat;
  net_fn : nets.Transformed;
  params : option Params;
  opt_state : option OptState;
  mp_state : option MessagePassingStateChunked;
}.

Definition set_params_opt_state (self : Self) (params' : option Params)
    (opt_state' : option OptState) : Self :=
  {| spec := spec self; decode_hints := decode_hints self;
     decode_diffs := decode_diffs self; checkpoint_path := checkpoint_path self;
     name := name self; _freeze_processor := _freeze_processor self;
     opt := opt self; nb_dims := nb_dims self; net_fn := net_fn self;
     params := params'; opt_state := opt_state'; mp_state := mp_state self |}.

Definition set_mp_state (self : Self) (mp_state' : option MessagePassingStateChunked) : Self :=
  {| spec := spec self; decode_hints := decode_hints self;
     decode_diffs := decode_diffs self; checkpoint_path := checkpoint_path self;
     name := name self; _freeze_processor := _freeze_processor self;
     opt := opt self; nb_dims := nb_dims self; net_fn := net_fn self;
     params := params self; opt_state := opt_state self; mp_state := mp_state' |}.

(** [for dp in fields: nb_dims[dp.name] = dp.data.shape[-1]]. *)
Definition record_dims (nb_dims : gmap string nat) (fields : list probing.DataPoint)
    : Result (gmap string nat) :=
  for_each
    (λ nb_dims dp,
       dim ← tuple_last (shape (probing.data dp));
       Ok (<[probing.name dp := dim]> nb_dims))
    nb_dims fields.

End self.

(** ** [class BaselineModel] *)

Module model.
Section model.
Context `{Backend}.

(** Modelled from the spec: the base class [model.Model] is not among the
    sources. The spec gives construction two ways to fail, the hint flags
    and the feature dimensions, both in [BaselineModel.__init__]; the base
    constructor records the spec and returns. *)
Definition __init__ (spec : Spec) : Result () := Ok ().

End model.
End model.

Module BaselineModel.
Section BaselineModel.
Context `{Backend}.
Context `{!Provider, !Losses, !Optimizer, !Pickle}.

(** [_create_net_fns], with the attributes of [self] it reads
    ([spec], [decode_hints], [decode_diffs], [nb_dims]) passed first. *)
Definition _create_net_fns (spec : Spec) (decode_hints decode_diffs : bool)
    (nb_dims : gmap string nat) (hidden_dim : Z) (encode_hints : bool) (kind : string)
    (use_lstm : bool) (dropout_prob : Float) (nb_heads : Z) : nets.Transformed :=
  nets.Net
    {| nets.spec := spec; nets.hidden_dim := hidden_dim;
       nets.encode_hints := encode_hints; nets.decode_hints := decode_hints;
       nets.decode_diffs := decode_diffs; nets.kind := kind;
       nets.use_lstm := use_lstm; nets.dropout_prob := dropout_prob;
       nets.nb_heads := nb_heads; nets.nb_dims := nb_dims |}.

(** The body of [__init__]. [create_net_fns] is the [_create_net_fns] of
    the class being instantiated (the subclass overrides it);
    [dummy_trajectory] is [None] unless the caller supplies one. *)
Definition construct
    (create_net_fns : Spec → bool → bool → gmap string nat → Z → bool → string → bool →
                      Float → Z → nets.Transformed)
    (spec : Spec) (nb_heads hidden_dim : Z) (kind : string)
    (encode_hints decode_hints decode_diffs use_lstm : bool) (learning_rate : Float)
    (checkpoint_path : string) (freeze_processor : bool)
    (dummy_trajectory : option (samplers.Feedback samplers.Features))
    (dropout_prob : Float) (name : string) : Result Self :=
  _ ← model.__init__ spec;
  if encode_hints && negb decode_hints
  then Raise (ValueError "`encode_hints=True`, `decode_hints=False` is invalid.")
  else
    let opt := adam learning_rate in
    let nb_dims : gmap string nat := ∅ in
    dummy ← match dummy_trajectory with
            | Some dummy => Ok dummy
            | None => Raise (AttributeError "'NoneType' object has no attribute 'features'")
            end;
    nb_dims ← record_dims nb_dims (samplers.inputs (samplers.features dummy));
    nb_dims ← record_dims nb_dims (samplers.hints (samplers.features dummy));
    nb_dims ← record_dims nb_dims (samplers.outputs dummy);
    let net_fn :=
      create_net_fns spec decode_hints decode_diffs nb_dims
        hidden_dim encode_hints kind use_lstm dropout_prob nb_heads in
    Ok {| spec := spec; decode_hints := decode_hints; decode_diffs := decode_diffs;
          checkpoint_path := checkpoint_path; name := name;
          _freeze_processor := freeze_processor; opt := opt; nb_dims := nb_dims;
          net_fn := net_fn; params := None; opt_state := None; mp_state := None |}.

Definition __init__ := construct _create_net_fns.

(** [self.net_fn_apply]: [jax.jit] of [self.net_fn.apply]. *)
Definition net_fn_apply (self : Self) (params : Params) (rng_key : PRNGKey)
    (features : samplers.Features) (toggle : bool) : nets.Preds :=
  Net_apply (nets.config_of (net_fn self)) params rng_key features toggle.

Definition init (self : Self) (features : samplers.Features) (seed : Z) : Self :=
  let params := Net_init (nets.config_of (net_fn self)) (PRNGKey_of_seed seed) features true in
  set_params_opt_state self (Some params) (Some (optax.init (opt self) params)).

(** Applying the network to parameters that are still [None] raises. *)
Definition predict (self : Self) (rng_key : PRNGKey) (features : samplers.Features)
    : Result (gmap string probing.DataPoint *
              (list (gmap string Tensor) * DiffLogits * GtDiffs)) :=
  params ← hk.as_structure (params self);
  let '(outs, hint_preds, diff_logits, gt_diff) :=
    net_fn_apply self params rng_key features true in
  Ok (postprocess (spec self) outs, (hint_preds, diff_logits, gt_diff)).

(** The nested function [loss] of [update]. *)
Definition loss (self : Self) (params : Params) (rng_key : PRNGKey)
    (feedback : samplers.Feedback samplers.Features) : Result Scalar :=
  let '(output_preds, hint_preds, diff_logits, gt_diffs) :=
    net_fn_apply self params rng_key (samplers.features feedback) false in
  nb_nodes ← _nb_nodes feedback false;
  let lengths := samplers.lengths (samplers.features feedback) in
  let total_loss := scalar_zero in
  (* Calculate output loss. *)
  total_loss ← for_each
    (λ total_loss truth,
       pred ← getitem output_preds (probing.name truth);
       Ok (scalar_add total_loss (output_loss truth pred nb_nodes)))
    total_loss (samplers.outputs feedback);
  (* Optionally accumulate diff losses. *)
  let total_loss :=
    if decode_diffs self
    then scalar_add total_loss (diff_loss diff_logits gt_diffs lengths)
    else total_loss in
  (* Optionally accumulate hint losses. *)
  total_loss ←
    (if decode_hints self
     then for_each
       (λ total_loss truth,
          preds ← mapM (λ x, getitem x (probing.name truth)) hint_preds;
          Ok (scalar_add total_loss
                (hint_loss truth preds gt_diffs lengths nb_nodes (decode_diffs self))))
       total_loss (samplers.hints (samplers.features feedback))
     else Ok total_loss);
  Ok total_loss.

(** The loss as the specification words it: the list of its terms.
    [spec_output_terms] holds the output loss of every output field,
    [spec_diff_terms] the diff loss, [spec_hint_terms] the hint loss of
    every hint field; [spec_loss] adds up, from zero and in this order, the
    output terms, the diff term if [decode_diffs] is set and the hint terms
    if [decode_hints] is set. *)
Definition spec_output_terms (self : Self) (params : Params) (rng_key : PRNGKey)
    (feedback : samplers.Feedback samplers.Features) : Result (list Scalar) :=
  let '(output_preds, _, _, _) :=
    net_fn_apply self params rng_key (samplers.features feedback) false in
  nb_nodes ← _nb_nodes feedback false;
  mapM
    (λ truth,
       pred ← getitem output_preds (probing.name truth);
       Ok (output_loss truth pred nb_nodes))
    (samplers.outputs feedback).

Definition spec_diff_terms (self : Self) (params : Params) (rng_key : PRNGKey)
    (feedback : samplers.Feedback samplers.Features) : list Scalar :=
  let '(_, _, diff_logits, gt_diffs) :=
    net_fn_apply self params rng_key (samplers.features feedback) false in
  [diff_loss diff_logits gt_diffs (samplers.lengths (samplers.features feedback))].

Definition spec_hint_terms (self : Self) (params : Params) (rng_key : PRNGKey)
    (feedback : samplers.Feedback samplers.Features) : Result (list Scalar) :=
  let '(_, hint_preds, _, gt_diffs) :=
    net_fn_apply self params rng_key (samplers.features feedback) false in
  nb_nodes ← _nb_nodes feedback false;
  mapM
    (λ truth,
       preds ← mapM (λ x, getitem x (probing.name truth)) hint_preds;
       Ok (hint_loss truth preds gt_diffs (samplers.lengths (samplers.features feedback))
             nb_nodes (decode_diffs self)))
    (samplers.hints (samplers.features feedback)).

Definition spec_loss (self : Self) (params : Params) (rng_key : PRNGKey)
    (feedback : samplers.Feedback samplers.Features) : Result Scalar :=
  output_terms ← spec_output_terms self params rng_key feedback;
  hint_terms ← (if decode_hints self
                then spec_hint_terms self params rng_key feedback
                else Ok []);
  let diff_terms :=
    if decode_diffs self then spec_diff_terms self params rng_key feedback else [] in
  Ok (foldl scalar_add scalar_zero (output_terms ++ diff_terms ++ hint_terms)).

Definition _update_params (self : Self) (params grads : Params) (opt_state : OptState)
    : Result (Params * OptState) :=
  let '(updates, opt_state) := optax.update (opt self) grads opt_state in
  if _freeze_processor self then
    let params_subset := _filter_processor params in
    let updates_subset := _filter_processor updates in
    new_params ← optax.apply_updates params_subset updates_subset;
    let new_params := hk.merge [params; new_params] in
    Ok (new_params, opt_state)
  else
    new_params ← optax.apply_updates params updates;
    Ok (new_params, opt_state).

Definition update (self : Self) (rng_key : PRNGKey) (params : Params) (opt_state : OptState)
    (feedback : samplers.Feedback samplers.Features) : Result (Params * OptState * Scalar) :=
  (* Calculate and apply gradients. *)
  '(lss, grads) ← jax.value_and_grad (λ params, loss self params rng_key feedback) params;
  '(new_params, opt_state) ← _update_params self params grads opt_state;
  Ok (new_params, opt_state, lss).

(** An attribute that is still [None] where the callee needs a value. *)
Definition not_None {A} (what : string) (value : option A) : Result A :=
  match value with
  | Some a => Ok a
  | None => Raise (TypeError what)
  end.

Definition feedback (self : Self) (rng_key : PRNGKey)
    (feedback : samplers.Feedback samplers.Features) : Result (Self * Scalar) :=
  params ← hk.as_structure (params self);
  opt_state ← not_None "opt_state is None" (opt_state self);
  '(params, opt_state, cur_loss) ← update self rng_key params opt_state feedback;
  Ok (set_params_opt_state self (Some params) (Some opt_state), cur_loss).

(** [losses_.update(d)]. *)
Definition dict_update {V} (losses_ d : gmap string V) : gmap string V := d ∪ losses_.

Definition verbose_loss (self : Self) (feedback : samplers.Feedback samplers.Features)
    (extra_info : list (gmap string Tensor) * DiffLogits * GtDiffs)
    : Result (gmap string Scalar) :=
  let '(hint_preds, diff_logits, gt_diffs) := extra_info in
  nb_nodes ← _nb_nodes feedback false;
  let lengths := samplers.lengths (samplers.features feedback) in
  let losses_ : gmap string Scalar := ∅ in
  let losses_ :=
    if decode_diffs self
    then dict_update losses_ (diff_loss_verbose diff_logits gt_diffs lengths)
    else losses_ in
  let losses_ :=
    if decode_hints self
    then foldl
      (λ losses_ truth,
         dict_update losses_
           (hint_loss_verbose truth hint_preds gt_diffs lengths nb_nodes (decode_diffs self)))
      losses_ (samplers.hints (samplers.features feedback))
    else losses_ in
  Ok losses_.

Definition restore_model (self : Self) (file_name : string) (only_load_processor : bool)
    (fs : os.FileSystem) : Result Self :=
  let path := os_path_join (checkpoint_path self) file_name in
  blob ← os.read_file fs path;
  restored_state ← pickle_load blob;
  restored_params ←
    (if only_load_processor
     then restored ← hk.as_structure restored_state.1; Ok (Some (_filter_processor restored))
     else Ok restored_state.1);
  held ← hk.as_structure (params self);
  restored_params ← hk.as_structure restored_params;
  Ok (set_params_opt_state self (Some (hk.merge [held; restored_params])) restored_state.2).

Definition save_model (self : Self) (file_name : string) (fs : os.FileSystem)
    : Result os.FileSystem :=
  fs ← os.makedirs fs (checkpoint_path self);
  let to_save := (params self, opt_state self) in
  let path := os_path_join (checkpoint_path self) file_name in
  os.write_file fs path (pickle_dump to_save).

End BaselineModel.
End BaselineModel.

(** ** [class BaselineModelChunked(BaselineModel)]

    The subclass overrides [_create_net_fns], [init], [predict], [update]
    and [verbose_loss]; [__init__], [feedback], [_update_params],
    [restore_model] and [save_model] are inherited. A method that assigns
    to [self] before it may still raise returns the object along with its
    result. *)

Module BaselineModelChunked.
Section BaselineModelChunked.
Context `{Backend}.
Context `{!Provider, !Losses, !Optimizer, !Pickle}.

Definition _create_net_fns (spec : Spec) (decode_hints decode_diffs : bool)
    (nb_dims : gmap string nat) (hidden_dim : Z) (encode_hints : bool) (kind : string)
    (use_lstm : bool) (dropout_prob : Float) (nb_heads : Z) : nets.Transformed :=
  nets.NetChunked
    {| nets.spec := spec; nets.hidden_dim := hidden_dim;
       nets.encode_hints := encode_hints; nets.decode_hints := decode_hints;
       nets.decode_diffs := decode_diffs; nets.kind := kind;
       nets.use_lstm := use_lstm; nets.dropout_prob := dropout_prob;
       nets.nb_heads := nb_heads; nets.nb_dims := nb_dims |}.

Definition __init__ := BaselineModel.construct _create_net_fns.

(** [self.net_fn_apply]:
    [jax.jit(functools.partial(self.net_fn.apply, init_mp_state=False))]. *)
Definition net_fn_apply (self : Self) (params : Params) (rng_key : PRNGKey)
    (features : samplers.FeaturesChunked) (mp_state : MessagePassingStateChunked)
    (toggle : bool) : nets.PredsChunked * MessagePassingStateChunked :=
  NetChunked_apply (nets.config_of (net_fn self)) params rng_key features mp_state toggle false.

Definition _init_mp_state (self : Self) (features : samplers.FeaturesChunked)
    (rng_key : PRNGKey) : MessagePassingStateChunked :=
  let dummy_params :=
    NetChunked_init (nets.config_of (net_fn self)) rng_key features empty_mp_state false true in
  let '(_, mp_state) :=
    NetChunked_apply (nets.config_of (net_fn self)) dummy_params rng_key features
      empty_mp_state false true in
  mp_state.

Definition init (self : Self) (features : samplers.FeaturesChunked) (seed : Z) : Self :=
  let mp_state := _init_mp_state self features (PRNGKey_of_seed seed) in
  let self := set_mp_state self (Some mp_state) in
  let params :=
    NetChunked_init (nets.config_of (net_fn self)) (PRNGKey_of_seed seed) features
      mp_state true false in
  set_params_opt_state self (Some params) (Some (optax.init (opt self) params)).

Definition predict (self : Self) (rng_key : PRNGKey) (features : samplers.FeaturesChunked)
    : Result (gmap string probing.DataPoint *
              (gmap string Tensor * DiffLogits * GtDiffs)) :=
  Raise NotImplementedError.

(** The nested function [loss] of [update]; it reads [self.mp_state] and
    returns the new recurrent state as auxiliary output. *)
Definition loss (self : Self) (params : Params) (rng_key : PRNGKey)
    (feedback : samplers.Feedback samplers.FeaturesChunked)
    : Result (Scalar * MessagePassingStateChunked) :=
  held ← match mp_state self with
         | Some held => Ok held
         | None => Raise (AttributeError "object has no attribute 'mp_state'")
         end;
  let '((output_preds, hint_preds, diff_logits, gt_diffs), mp_state) :=
    net_fn_apply self params rng_key (samplers.features feedback) held false in
  nb_nodes ← _nb_nodes feedback true;
  let total_loss := scalar_zero in
  let is_first := samplers.is_first (samplers.features feedback) in
  let is_last := samplers.is_last (samplers.features feedback) in
  (* Calculate output loss. *)
  total_loss ← for_each
    (λ total_loss truth,
       pred ← getitem output_preds (probing.name truth);
       Ok (scalar_add total_loss (output_loss_chunked truth pred is_last nb_nodes)))
    total_loss (samplers.outputs feedback);
  (* Optionally accumulate diff losses. *)
  let total_loss :=
    if decode_diffs self
    then scalar_add total_loss (diff_loss_chunked diff_logits gt_diffs is_first)
    else total_loss in
  (* Optionally accumulate hint losses. *)
  total_loss ←
    (if decode_hints self
     then for_each
       (λ total_loss truth,
          pred ← getitem hint_preds (probing.name truth);
          let loss :=
            hint_loss_chunked truth pred gt_diffs is_first nb_nodes (decode_diffs self) in
          Ok (scalar_add total_loss loss))
       total_loss (samplers.hints (samplers.features feedback))
     else Ok total_loss);
  Ok (total_loss, mp_state).

Definition update (self : Self) (rng_key : PRNGKey) (params : Params) (opt_state : OptState)
    (feedback : samplers.Feedback samplers.FeaturesChunked)
    : Self * Result (Params * OptState * Scalar) :=
  match jax.value_and_grad_aux (λ params, loss self params rng_key feedback) params with
  | Raise e => (self, Raise e)
  | Ok ((lss, mp_state), grads) =>
      let self := set_mp_state self (Some mp_state) in
      (self,
       '(new_params, opt_state) ← BaselineModel._update_params self params grads opt_state;
       Ok (new_params, opt_state, lss))
  end.

(** The inherited [feedback], calling the subclass's [update]. *)
Definition feedback (self : Self) (rng_key : PRNGKey)
    (feedback : samplers.Feedback samplers.FeaturesChunked) : Self * Result Scalar :=
  match hk.as_structure (params self),
        BaselineModel.not_None "opt_state is None" (opt_state self) with
  | Ok params, Ok opt_state =>
      match update self rng_key params opt_state feedback with
      | (self, Ok (params, opt_state, cur_loss)) =>
          (set_params_opt_state self (Some params) (Some opt_state), Ok cur_loss)
      | (self, Raise e) => (self, Raise e)
      end
  | Raise e, _ | _, Raise e => (self, Raise e)
  end.

(** [verbose_loss(self, *args, **kwargs)], whatever the arguments. *)
Definition verbose_loss {Args : Type} (self : Self) (args : Args)
    : Result (gmap string Scalar) :=
  Raise NotImplementedError.

End BaselineModelChunked.
End BaselineModelChunked.

(** ** Training: repeated [feedback] *)

Section training.
Context `{Backend}.
Context `{!Provider, !Losses, !Optimizer, !Pickle}.

(** [for rng_key, feedback in steps: self.feedback(rng_key, feedback)] on a
    [BaselineModel]; the first call that raises ends the loop. *)
Fixpoint feedback_many (self : Self)
    (steps : list (PRNGKey * samplers.Feedback samplers.Features)) : Result Self :=
  match steps with
  | [] => Ok self
  | (rng_key, feedback) :: rest =>
      '(self, _) ← BaselineModel.feedback self rng_key feedback;
      feedback_many self rest
  end.

End training.

(** ** [_is_not_done_broadcast]

    The helper works on arrays themselves: an array of sequence lengths is
    compared with a step and padded with trailing axes of extent 1 up to
    the rank of a tensor. *)

Module jnp.

(** An array: its shape and its entries in row-major order. Lengths are
    whole numbers; the floats 1.0 and 0.0 of a mask are written 1 and 0. *)
Record ndarray := {
  shape : list nat;
  data : list Z;
}.

(** [jnp.expand_dims(a, -1)]: one more axis, of extent 1, at the end. *)
Definition expand_dims_last (a : ndarray) : ndarray :=
  {| shape := shape a ++ [1]; data := data a |}.

(** [(a > s) * 1.0]: entry by entry, 1.0 where the entry exceeds [s] and
    0.0 elsewhere. *)
Definition greater_times_one (a : ndarray) (s : Z) : ndarray :=
  {| shape := shape a;
     data := (λ x, if bool_decide (s < x)%Z then 1%Z else 0%Z) <$> data a |}.

End jnp.

Section broadcast.
Import Equations.Prop.Equations.

(** The loop [while len(is_not_done.shape) < len(tensor.shape)]. *)
Equations? expand_to_rank (is_not_done tensor : jnp.ndarray) : jnp.ndarray
    by wf (length (jnp.shape tensor) - length (jnp.shape is_not_done)) lt :=
  expand_to_rank is_not_done tensor
      with decide (length (jnp.shape is_not_done) < length (jnp.shape tensor)) := {
    | left _ => expand_to_rank (jnp.expand_dims_last is_not_done) tensor
    | right _ => is_not_done
  }.
Proof. simpl. rewrite length_app. simpl. lia. Qed.

Definition _is_not_done_broadcast (lengths : jnp.ndarray) (i : Z) (tensor : jnp.ndarray)
    : jnp.ndarray :=
  let is_not_done := jnp.greater_times_one lengths (i + 1) in
  expand_to_rank is_not_done tensor.

End broadcast.

(** ** A small concrete backend

    Integer-valued tensors and losses, an optimizer whose update is the
    gradient itself, a gradient of ones, a network with fixed predictions
    and a pickle that stores the record as it is. The examples below run
    the model on it. *)

Module Toy.

#[export] Instance backend : Backend := {|
  Tensor := list nat * Z;
  shape := fst;
  tensor_add := λ p u, (p.1, (p.2 + u.2)%Z);
  Scalar := Z;
  scalar_zero := 0%Z;
  scalar_add := Z.add;
  Float := Z;
  Spec := unit;
  PRNGKey := Z;
  PRNGKey_of_seed := id;
  OptState := nat;
  DiffLogits := unit;
  GtDiffs := unit;
  MessagePassingStateChunked := nat;
  empty_mp_state := 0;
|}.

#[export] Instance optimizer : Optimizer := {|
  adam := λ learning_rate,
    {| optax.init := λ params, 0; optax.update := λ grads opt_state, (grads, S opt_state) |};
  jax_grad := λ fun_ x, fmap (M:=gmap string) (fmap (M:=gmap string) (λ t : list nat * Z, (t.1, 1%Z))) x;
|}.

Definition scalar_tensor (z : Z) : list nat * Z := ([], z).

Definition toy_params : gmap string (gmap string (list nat * Z)) :=
  {[ "net/construct_processor" := {[ "w" := scalar_tensor 1 ]};
     "net/encoder" := {[ "w" := scalar_tensor 10 ]} ]}.

#[export] Instance provider : Provider := {|
  Net_init := λ config key features toggle, toy_params;
  Net_apply := λ config params key features toggle,
    ({[ "out" := scalar_tensor 0 ]}, [ {[ "h" := scalar_tensor 0 ]} ], (), ());
  NetChunked_init := λ config key features mp_state toggle init_mp_state, toy_params;
  NetChunked_apply := λ config params key features mp_state toggle init_mp_state,
    (({[ "out" := scalar_tensor 0 ]}, {[ "h" := scalar_tensor 0 ]}, (), ()), S mp_state);
  postprocess := λ spec outs, ∅;
|}.

#[export] Instance losses : Losses := {|
  output_loss := λ truth pred nb_nodes, 1%Z;
  diff_loss := λ diff_logits gt_diffs lengths, 10%Z;
  hint_loss := λ truth preds gt_diffs lengths nb_nodes decode_diffs, 100%Z;
  diff_loss_verbose := λ diff_logits gt_diffs lengths, ∅;
  hint_loss_verbose := λ truth preds gt_diffs lengths nb_nodes decode_diffs, ∅;
  output_loss_chunked := λ truth pred is_last nb_nodes, 1%Z;
  diff_loss_chunked := λ diff_logits gt_diffs is_first, 10%Z;
  hint_loss_chunked := λ truth pred gt_diffs is_first nb_nodes decode_diffs, 100%Z;
|}.

#[export] Instance pickle : Pickle := {|
  Blob := option (gmap string (gmap string (list nat * Z))) * option nat;
  pickle_dump := λ to_save, to_save;
  pickle_load := λ blob, Ok blob;
|}.

Definition field (name : string) (location : specs.Location) (shape : list nat)
    : probing.DataPoint :=
  {| probing.name := name; probing.location := location; probing.type_ := "scalar";
     probing.data := (shape, 0%Z) |}.

(** A batch of 4 samples on 5 nodes. *)
Definition toy_feedback : samplers.Feedback samplers.Features :=
  {| samplers.features :=
       {| samplers.Features_inputs :=
            [field "g" specs.GRAPH [4; 3]; field "pos" specs.NODE [4; 5];
             field "A" specs.EDGE [4; 5; 5]];
          samplers.Features_hints := [field "h" specs.NODE [7; 4; 5]];
          samplers.lengths := scalar_tensor 7 |};
     samplers.outputs := [field "out" specs.NODE [4; 5]] |}.

(** The same, as chunks of 2 steps. *)
Definition toy_feedback_chunked : samplers.Feedback samplers.FeaturesChunked :=
  {| samplers.features :=
       {| samplers.FeaturesChunked_inputs :=
            [field "g" specs.GRAPH [2; 4; 3]; field "pos" specs.NODE [2; 4; 5]];
          samplers.FeaturesChunked_hints := [field "h" specs.NODE [2; 4; 5]];
          samplers.is_first := scalar_tensor 0;
          samplers.is_last := scalar_tensor 0 |};
     samplers.outputs := [field "out" specs.NODE [2; 4; 5]] |}.

(** [cls(spec, decode_hints=..., decode_diffs=..., freeze_processor=...,
    dummy_trajectory=toy_feedback)], the other arguments at their
    defaults. *)
Definition construct_toy
    (create_net_fns : Spec → bool → bool → gmap string nat → Z → bool → string → bool →
                      Float → Z → nets.Transformed)
    (decode_hints decode_diffs freeze_processor : bool) : Result Self :=
  BaselineModel.construct create_net_fns () 1%Z 32%Z "mpnn" false decode_hints decode_diffs
    false 5%Z "/tmp/clrs3" freeze_processor (Some toy_feedback) 0%Z "base_model".

(** The attributes of the object that call returns. *)
Definition constructed (chunked decode_hints decode_diffs freeze_processor : bool) : Self :=
  {| spec := (); decode_hints := decode_hints; decode_diffs := decode_diffs;
     checkpoint_path := "/tmp/clrs3"; name := "base_model";
     _freeze_processor := freeze_processor; opt := adam 5%Z;
     nb_dims := {[ "g" := 3; "pos" := 5; "A" := 5; "h" := 5; "out" := 5 ]};
     net_fn :=
       (if chunked then nets.NetChunked else nets.Net)
         {| nets.spec := (); nets.hidden_dim := 32%Z; nets.encode_hints := false;
            nets.decode_hints := decode_hints; nets.decode_diffs := decode_diffs;
            nets.kind := "mpnn"; nets.use_lstm := false; nets.dropout_prob := 0%Z;
            nets.nb_heads := 1%Z;
            nets.nb_dims := {[ "g" := 3; "pos" := 5; "A" := 5; "h" := 5; "out" := 5 ]} |};
     params := None; opt_state := None; mp_state := None |}.

(** The full-trajectory model after [init]. *)
Definition initialised (decode_hints decode_diffs freeze_processor : bool) : Self :=
  BaselineModel.init (constructed false decode_hints decode_diffs freeze_processor)
    (samplers.features toy_feedback) 42%Z.

(** The chunked model after [init]. *)
Definition initialised_chunked : Self :=
  BaselineModelChunked.init (constructed true true false false)
    (samplers.features toy_feedback_chunked) 42%Z.

(** Parameters of the same structure as [toy_params], other values. *)
Definition other_params : gmap string (gmap string (list nat * Z)) :=
  {[ "net/construct_processor" := {[ "w" := scalar_tensor 7 ]};
     "net/encoder" := {[ "w" := scalar_tensor 70 ]} ]}.

Definition empty_fs : os.FileSystem := {| os.dirs := ∅; os.files := ∅ |}.

(** An initialised model of the same hyper-parameters that holds
    [other_params] and another optimizer state. *)
Definition fresh : Self :=
  set_params_opt_state (initialised true false false) (Some other_params) (Some 9).

(** The file system after [save_model('best.pkl')] on the initialised
    model. *)
Definition saved_fs : os.FileSystem :=
  {| os.dirs := {[ "/tmp/clrs3" ]};
     os.files := {[ "/tmp/clrs3/best.pkl" := (Some toy_params, Some 0) ]} |}.

(** The file system after [save_model('best.pkl')] on the model as
    constructed, before [init]. *)
Definition saved_before_init_fs : os.FileSystem :=
  {| os.dirs := {[ "/tmp/clrs3" ]};
     os.files := {[ "/tmp/clrs3/best.pkl" := (None, None) ]} |}.

(** A feedback whose first node-located input has no nodes axis. *)
Definition short_feedback : samplers.Feedback samplers.Features :=
  {| samplers.features :=
       {| samplers.Features_inputs :=
            [field "g" specs.GRAPH [4; 3]; field "pos" specs.NODE [4];
             field "A" specs.EDGE [4; 5; 5]];
          samplers.Features_hints := [];
          samplers.lengths := scalar_tensor 7 |};
     samplers.outputs := [] |}.

(** [toy_params] after one frozen optimizer step whose updates are
    [toy_params] itself. *)
Definition updated_frozen : gmap string (gmap string (list nat * Z)) :=
  {[ "net/construct_processor" := {[ "w" := scalar_tensor 2 ]};
     "net/encoder" := {[ "w" := scalar_tensor 10 ]} ]}.

(** Two training steps on [toy_feedback]. *)
Definition two_steps : list (PRNGKey * samplers.Feedback samplers.Features) :=
  [(0%Z, toy_feedback); (1%Z, toy_feedback)].

(** The frozen model after two calls of [feedback]. *)
Definition trained_twice : Self :=
  set_params_opt_state (initialised true false true)
    (Some {[ "net/construct_processor" := {[ "w" := scalar_tensor 3 ]};
             "net/encoder" := {[ "w" := scalar_tensor 10 ]} ]})
    (Some 2).

(** [fresh] after [restore_model('best.pkl')] from [saved_fs]. *)
Definition restored_full : Self :=
  set_params_opt_state fresh (Some toy_params) (Some 0).

(** The file system after [save_model('/data/best.pkl')] on the initialised
    model. *)
Definition saved_absolute_fs : os.FileSystem :=
  {| os.dirs := {[ "/tmp/clrs3" ]};
     os.files := {[ "/data/best.pkl" := (Some toy_params, Some 0) ]} |}.

End Toy.

(** Closes an equation between closed terms by evaluating both sides. *)
Ltac by_computation :=
  lazymatch goal with
  | |- @eq ?T _ ?rhs => vm_cast_no_check (@eq_refl T rhs)
  end.

(** * Properties *)

(** ** The error monad *)

Section result_lemmas.
Context {A B : Type}.

Lemma bind_Ok_inv (r : Result A) (k : A → Result B) (b : B) :
  r ≫= k = Ok b → ∃ a, r = Ok a ∧ k a = Ok b.
Proof. destruct r as [a|e]; simpl; [eauto | discriminate]. Qed.

Lemma bind_Raise_inv (r : Result A) (k : A → Result B) (e : PyError) :
  r ≫= k = Raise e → r = Raise e ∨ ∃ a, r = Ok a ∧ k a = Raise e.
Proof. destruct r as [a|e']; simpl; [eauto | intros [= ->]; by left]. Qed.

End result_lemmas.

(** ** [haiku.data_structures]: what [filter] and [merge] do to each leaf *)

Section hk_lemmas.
Context {A : Type}.
Implicit Types (p q : gmap string (gmap string A)).

Lemma leaf_to_haiku_dict (leaves : gmap (string * string) A) m n :
  hk.leaf (hk.to_haiku_dict leaves) m n = leaves !! (m, n).
Proof. unfold hk.leaf, hk.to_haiku_dict. apply lookup_map_curry. Qed.

Lemma lookup_traverse p m n : hk.traverse p !! (m, n) = hk.leaf p m n.
Proof. unfold hk.leaf, hk.traverse. apply lookup_map_uncurry. Qed.

Lemma leaf_filter (predicate : string → string → A → bool) p m n :
  hk.leaf (hk.filter predicate p) m n =
  match hk.leaf p m n with
  | Some v => if predicate m n v then Some v else None
  | None => None
  end.
Proof.
  unfold hk.filter. rewrite leaf_to_haiku_dict, map_lookup_filter, lookup_traverse.
  destruct (hk.leaf p m n) as [v|]; simpl; [|done].
  case_guard as Hp; simpl in *; [by rewrite Hp |].
  by destruct (predicate m n v).
Qed.

Lemma leaf_merge p q m n :
  hk.leaf (hk.merge [p; q]) m n =
  match hk.leaf q m n with
  | Some v => Some v
  | None => hk.leaf p m n
  end.
Proof.
  unfold hk.merge; simpl.
  rewrite leaf_to_haiku_dict, lookup_union, lookup_union, lookup_empty, !lookup_traverse.
  destruct (hk.leaf q m n), (hk.leaf p m n); done.
Qed.

Lemma to_haiku_dict_no_empty_module (leaves : gmap (string * string) A) :
  hk.no_empty_module (hk.to_haiku_dict leaves).
Proof.
  intros m bundle Hm. unfold hk.to_haiku_dict in Hm.
  exact (map_curry_non_empty (MC:=gmap (string * string)) leaves m bundle Hm).
Qed.

(** Structures without empty modules are determined by their leaves. *)
Lemma structure_eq_of_leaves p q :
  hk.no_empty_module p → hk.no_empty_module q →
  (∀ m n, hk.leaf p m n = hk.leaf q m n) → p = q.
Proof.
  intros Hp Hq Hleaf.
  rewrite <- (map_curry_uncurry_non_empty p), <- (map_curry_uncurry_non_empty q) by done.
  f_equal. apply map_eq; intros [m n].
  rewrite !lookup_map_uncurry. apply Hleaf.
Qed.

Lemma merge_no_empty_module (structures : list (gmap string (gmap string A))) :
  hk.no_empty_module (hk.merge structures).
Proof. apply to_haiku_dict_no_empty_module. Qed.

End hk_lemmas.

(** ** Node-count inference *)

Section nb_nodes.
Context `{Backend}.

Lemma _nb_nodes_scan_skip (pre rest : list probing.DataPoint) (is_chunked : bool) :
  Forall (λ inp, is_node_or_edge inp = false) pre →
  _nb_nodes_scan (pre ++ rest) is_chunked = _nb_nodes_scan rest is_chunked.
Proof.
  induction 1 as [|inp pre Hinp _ IH]; simpl; [done |].
  by rewrite Hinp.
Qed.

Lemma _nb_nodes_scan_filter (inps : list probing.DataPoint) (is_chunked : bool) :
  _nb_nodes_scan inps is_chunked =
  _nb_nodes_scan (filter (λ inp, is_node_or_edge inp = true) inps) is_chunked.
Proof.
  induction inps as [|inp inps IH]; simpl; [done |].
  destruct (is_node_or_edge inp) eqn:Hinp.
  - rewrite filter_cons_True by done. simpl. by rewrite Hinp.
  - rewrite filter_cons_False by (by rewrite Hinp). done.
Qed.

(** C4. Node-count inference reads the nodes axis (position 1 of a full
    trajectory, position 2 of a chunked one) of the first input field
    located at a node or an edge; two feedbacks whose node- and
    edge-located input fields are the same, in the same order, get the same
    answer wherever the other input fields stand; and without such a field
    the assertion fails. *)
Theorem nb_nodes_first_node_or_edge_field `{!samplers.FeaturesLike F}
    (feedback : samplers.Feedback F) (is_chunked : bool) :
  (∀ pre inp post n,
     samplers.inputs (samplers.features feedback) = pre ++ inp :: post →
     Forall (λ other, probing.location other ∉ [specs.NODE; specs.EDGE]) pre →
     probing.location inp ∈ [specs.NODE; specs.EDGE] →
     shape (probing.data inp) !! (if is_chunked then 2 else 1) = Some n →
     _nb_nodes feedback is_chunked = Ok n)
  ∧ (∀ feedback' : samplers.Feedback F,
       filter (λ inp, probing.location inp ∈ [specs.NODE; specs.EDGE])
         (samplers.inputs (samplers.features feedback')) =
       filter (λ inp, probing.location inp ∈ [specs.NODE; specs.EDGE])
         (samplers.inputs (samplers.features feedback)) →
       _nb_nodes feedback' is_chunked = _nb_nodes feedback is_chunked)
  ∧ (Forall (λ other, probing.location other ∉ [specs.NODE; specs.EDGE])
       (samplers.inputs (samplers.features feedback)) →
     _nb_nodes feedback is_chunked = Raise AssertionError).
Proof.
  assert (Hskip : ∀ l : list probing.DataPoint,
    Forall (λ other, probing.location other ∉ [specs.NODE; specs.EDGE]) l →
    Forall (λ inp, is_node_or_edge inp = false) l).
  { intros l Hl. eapply Forall_impl; [exact Hl |]. intros inp Hinp.
    unfold is_node_or_edge. by apply bool_decide_eq_false. }
  assert (Hfilter : ∀ l : list probing.DataPoint,
    filter (λ inp, is_node_or_edge inp = true) l =
    filter (λ inp, probing.location inp ∈ [specs.NODE; specs.EDGE]) l).
  { intros l. apply list_filter_iff. intros inp.
    unfold is_node_or_edge. apply bool_decide_eq_true. }
  unfold _nb_nodes. split; [|split].
  - intros pre inp post n -> Hpre Hinp Hshape.
    rewrite _nb_nodes_scan_skip by auto. simpl.
    unfold is_node_or_edge. rewrite bool_decide_eq_true_2 by done.
    unfold tuple_index. destruct is_chunked; by rewrite Hshape.
  - intros feedback' Hsame.
    rewrite (_nb_nodes_scan_filter (samplers.inputs (samplers.features feedback'))).
    rewrite (_nb_nodes_scan_filter (samplers.inputs (samplers.features feedback))).
    by rewrite !Hfilter, Hsame.
  - intros Hnone.
    rewrite <- (app_nil_r (samplers.inputs _)).
    by rewrite _nb_nodes_scan_skip by auto.
Qed.

End nb_nodes.

(** ** Construction *)

Section construction.
Context `{Backend}.
Context `{!Optimizer}.

Lemma record_dims_raises_IndexError (fields : list probing.DataPoint)
    (nb_dims : gmap string nat) (e : PyError) :
  record_dims nb_dims fields = Raise e → e = IndexError.
Proof.
  unfold record_dims. revert nb_dims.
  induction fields as [|dp fields IH]; intros nb_dims; simpl; [done |].
  destruct (tuple_last (shape (probing.data dp))) as [dim|e'] eqn:Hlast; simpl.
  - apply IH.
  - intros [= <-]. unfold tuple_last in Hlast.
    destruct (last (shape (probing.data dp))); congruence.
Qed.

(** The constructor body raises a [ValueError] exactly on the inconsistent
    hint flags, whichever [_create_net_fns] it is given. *)
Lemma construct_ValueError_iff
    (create_net_fns : Spec → bool → bool → gmap string nat → Z → bool → string → bool →
                      Float → Z → nets.Transformed)
    (spec : Spec) (nb_heads hidden_dim : Z) (kind : string)
    (encode_hints decode_hints decode_diffs use_lstm : bool) (learning_rate : Float)
    (checkpoint_path : string) (freeze_processor : bool)
    (dummy_trajectory : option (samplers.Feedback samplers.Features))
    (dropout_prob : Float) (name : string) :
  (∃ msg,
     BaselineModel.construct create_net_fns spec nb_heads hidden_dim kind
       encode_hints decode_hints decode_diffs use_lstm learning_rate checkpoint_path
       freeze_processor dummy_trajectory dropout_prob name = Raise (ValueError msg))
  ↔ encode_hints = true ∧ decode_hints = false.
Proof.
  unfold BaselineModel.construct. split.
  - intros [msg Hraise].
    destruct encode_hints, decode_hints; simpl in Hraise; try done.
    all: destruct dummy_trajectory as [dummy|]; simpl in Hraise; [|discriminate].
    all: repeat
      (apply bind_Raise_inv in Hraise as [Hraise|(? & _ & Hraise)];
       [by apply record_dims_raises_IndexError in Hraise |]).
    all: discriminate.
  - intros [-> ->]. simpl. eauto.
Qed.

(** Without a dummy trajectory the constructor body raises, whichever
    [_create_net_fns] it is given. *)
Lemma construct_None
    (create_net_fns : Spec → bool → bool → gmap string nat → Z → bool → string → bool →
                      Float → Z → nets.Transformed)
    (spec : Spec) (nb_heads hidden_dim : Z) (kind : string)
    (encode_hints decode_hints decode_diffs use_lstm : bool) (learning_rate : Float)
    (checkpoint_path : string) (freeze_processor : bool)
    (dropout_prob : Float) (name : string) :
  BaselineModel.construct create_net_fns spec nb_heads hidden_dim kind
    encode_hints decode_hints decode_diffs use_lstm learning_rate checkpoint_path
    freeze_processor None dropout_prob name =
  Raise (if encode_hints && negb decode_hints
         then ValueError "`encode_hints=True`, `decode_hints=False` is invalid."
         else AttributeError "'NoneType' object has no attribute 'features'").
Proof.
  unfold BaselineModel.construct.
  destruct (encode_hints && negb decode_hints); reflexivity.
Qed.

(** C6. Constructing a [BaselineModel] or a [BaselineModelChunked] raises
    the configuration error (a [ValueError]) exactly when [encode_hints] is
    set while [decode_hints] is not; under every other combination of the
    two flags construction raises no [ValueError] at all. *)
Theorem init_rejects_encode_without_decode
    (spec : Spec) (nb_heads hidden_dim : Z) (kind : string)
    (encode_hints decode_hints decode_diffs use_lstm : bool) (learning_rate : Float)
    (checkpoint_path : string) (freeze_processor : bool)
    (dummy_trajectory : option (samplers.Feedback samplers.Features))
    (dropout_prob : Float) (name : string) :
  ((∃ msg,
      BaselineModel.__init__ spec nb_heads hidden_dim kind
        encode_hints decode_hints decode_diffs use_lstm learning_rate checkpoint_path
        freeze_processor dummy_trajectory dropout_prob name = Raise (ValueError msg))
   ↔ encode_hints = true ∧ decode_hints = false)
  ∧ ((∃ msg,
        BaselineModelChunked.__init__ spec nb_heads hidden_dim kind
          encode_hints decode_hints decode_diffs use_lstm learning_rate checkpoint_path
          freeze_processor dummy_trajectory dropout_prob name = Raise (ValueError msg))
     ↔ encode_hints = true ∧ decode_hints = false).
Proof.
  split; apply construct_ValueError_iff.
Qed.

(** C10. With [dummy_trajectory] left at its default [None], constructing
    a [BaselineModel] or a [BaselineModelChunked] raises whatever the other
    arguments: on the hint flags if they are inconsistent, and otherwise on
    reading [dummy_trajectory.features]. *)
Theorem init_without_dummy_trajectory_fails
    (spec : Spec) (nb_heads hidden_dim : Z) (kind : string)
    (encode_hints decode_hints decode_diffs use_lstm : bool) (learning_rate : Float)
    (checkpoint_path : string) (freeze_processor : bool)
    (dropout_prob : Float) (name : string) :
  let raised :=
    Raise (if encode_hints && negb decode_hints
           then ValueError "`encode_hints=True`, `decode_hints=False` is invalid."
           else AttributeError "'NoneType' object has no attribute 'features'") in
  BaselineModel.__init__ spec nb_heads hidden_dim kind
    encode_hints decode_hints decode_diffs use_lstm learning_rate checkpoint_path
    freeze_processor None dropout_prob name = raised
  ∧ BaselineModelChunked.__init__ spec nb_heads hidden_dim kind
      encode_hints decode_hints decode_diffs use_lstm learning_rate checkpoint_path
      freeze_processor None dropout_prob name = raised.
Proof.
  split; apply construct_None.
Qed.

End construction.

(** ** The loss of the full-trajectory update *)

Section loss.
Context `{Backend}.
Context `{!Provider, !Losses, !Optimizer, !Pickle}.

(** A loop that adds one term per element computes the terms, then their
    sum onto the running total. *)
Lemma for_each_accumulate {A} (body : Scalar → A → Result Scalar)
    (term : A → Result Scalar) (xs : list A) (total : Scalar) :
  (∀ total x, body total x = t ← term x; Ok (scalar_add total t)) →
  for_each body total xs = terms ← mapM term xs; Ok (foldl scalar_add total terms).
Proof.
  intros Hbody. revert total.
  induction xs as [|x xs IH]; intros total; simpl; [done |].
  rewrite Hbody. destruct (term x) as [t|e]; simpl; [|done].
  rewrite IH. by destruct (mapM term xs).
Qed.

Lemma getitem_is_Some {V} (d : gmap string V) (key : string) :
  is_Some (d !! key) → ∃ v, getitem d key = Ok v.
Proof. intros [v Hv]. unfold getitem. rewrite Hv. by eexists. Qed.

Lemma mapM_Ok {A B} (f : A → Result B) (xs : list A) :
  Forall (λ x, ∃ y, f x = Ok y) xs → ∃ ys, mapM f xs = Ok ys.
Proof.
  induction 1 as [|x xs [y Hy] _ [ys IH]]; simpl; [by eexists |].
  rewrite Hy. simpl. rewrite IH. simpl. by eexists.
Qed.

(** C2. The scalar loss of the full-trajectory update is the sum, taken
    from zero and in this order, of the output loss of every output field,
    then the diff loss if [decode_diffs] is set, then the hint loss of
    every hint field if [decode_hints] is set, and it raises exactly when
    computing one of these terms does. With [decode_hints] unset it is the
    sum of the output terms and the diff term alone. *)
Theorem loss_is_sum_of_enabled_terms (self : Self) (params : Params) (rng_key : PRNGKey)
    (feedback : samplers.Feedback samplers.Features) :
  BaselineModel.loss self params rng_key feedback =
    BaselineModel.spec_loss self params rng_key feedback
  ∧ (decode_hints self = false →
     BaselineModel.loss self params rng_key feedback =
       (output_terms ← BaselineModel.spec_output_terms self params rng_key feedback;
        let diff_terms :=
          if decode_diffs self
          then BaselineModel.spec_diff_terms self params rng_key feedback
          else [] in
        Ok (foldl scalar_add scalar_zero (output_terms ++ diff_terms)))).
Proof.
  assert (Hloss : BaselineModel.loss self params rng_key feedback =
                  BaselineModel.spec_loss self params rng_key feedback).
  { unfold BaselineModel.loss, BaselineModel.spec_loss, BaselineModel.spec_output_terms,
      BaselineModel.spec_hint_terms, BaselineModel.spec_diff_terms.
    destruct (BaselineModel.net_fn_apply self params rng_key (samplers.features feedback)
                false) as [[[output_preds hint_preds] diff_logits] gt_diffs].
    destruct (_nb_nodes feedback false) as [nb_nodes|e]; simpl; [|done].
    set (lengths := samplers.lengths (samplers.features feedback)).
    set (output_term := λ truth : probing.DataPoint,
           pred ← getitem output_preds (probing.name truth);
           Ok (output_loss truth pred nb_nodes)).
    set (hint_term := λ truth : probing.DataPoint,
           preds ← mapM (λ x, getitem x (probing.name truth)) hint_preds;
           Ok (hint_loss truth preds gt_diffs lengths nb_nodes (decode_diffs self))).
    rewrite (for_each_accumulate _ output_term).
    2:{ intros total truth. unfold output_term.
        by destruct (getitem output_preds (probing.name truth)). }
    destruct (mapM output_term (samplers.outputs feedback)) as [output_terms|e];
      simpl; [|done].
    destruct (decode_hints self); simpl.
    - rewrite (for_each_accumulate _ hint_term).
      2:{ intros total truth. unfold hint_term.
          by destruct (mapM (λ x, getitem x (probing.name truth)) hint_preds). }
      destruct (mapM hint_term _) as [hint_terms|e]; simpl; [|done].
      destruct (decode_diffs self); simpl; by rewrite !foldl_app.
    - destruct (decode_diffs self); simpl; by rewrite ?foldl_app, ?app_nil_r. }
  split; [exact Hloss |].
  intros Hoff. rewrite Hloss. unfold BaselineModel.spec_loss. rewrite Hoff.
  destruct (BaselineModel.spec_output_terms self params rng_key feedback); simpl; [|done].
  by rewrite app_nil_r.
Qed.

End loss.

(** ** The chunked model *)

Section chunked.
Context `{Backend}.
Context `{!Provider, !Losses, !Optimizer, !Pickle}.

(** The recurrent state the chunked loss hands back is the one the network
    returned when applied to the held state. *)
Lemma chunked_loss_Ok_inv (self : Self) (params : Params) (rng_key : PRNGKey)
    (feedback : samplers.Feedback samplers.FeaturesChunked) lss new_state :
  BaselineModelChunked.loss self params rng_key feedback = Ok (lss, new_state) →
  ∃ held, mp_state self = Some held ∧
    new_state =
      (NetChunked_apply (nets.config_of (net_fn self)) params rng_key
         (samplers.features feedback) held false false).2.
Proof.
  unfold BaselineModelChunked.loss, BaselineModelChunked.net_fn_apply.
  destruct (mp_state self) as [held|]; simpl; [|discriminate].
  intros Hloss. exists held. split; [done |]. revert Hloss.
  destruct (NetChunked_apply _ params rng_key (samplers.features feedback) held false false)
    as [[[[output_preds hint_preds] diff_logits] gt_diffs] mp_state'].
  intros Hloss.
  repeat (apply bind_Ok_inv in Hloss as (? & _ & Hloss)).
  by injection Hloss as _ <-.
Qed.

(** The chunked loss returns as soon as the held state is set, the node
    count can be inferred and the network predicted every field the loss
    looks up. *)
Lemma chunked_loss_returns (self : Self) (params : Params) (rng_key : PRNGKey)
    (feedback : samplers.Feedback samplers.FeaturesChunked) held nb_nodes :
  mp_state self = Some held →
  _nb_nodes feedback true = Ok nb_nodes →
  let preds :=
    (NetChunked_apply (nets.config_of (net_fn self)) params rng_key
       (samplers.features feedback) held false false).1 in
  Forall (λ truth, is_Some (preds.1.1.1 !! probing.name truth)) (samplers.outputs feedback) →
  (decode_hints self = true →
   Forall (λ truth, is_Some (preds.1.1.2 !! probing.name truth))
     (samplers.hints (samplers.features feedback))) →
  ∃ lss new_state, BaselineModelChunked.loss self params rng_key feedback = Ok (lss, new_state).
Proof.
  intros Hheld Hnb. 
  unfold BaselineModelChunked.loss, BaselineModelChunked.net_fn_apply.
  rewrite Hheld, Hnb. simpl.
  destruct (NetChunked_apply _ params rng_key (samplers.features feedback) held false false)
    as [[[[output_preds hint_preds] diff_logits] gt_diffs] mp_state'].
  simpl. intros Houts Hhints.
  set (is_first := samplers.is_first (samplers.features feedback)).
  set (is_last := samplers.is_last (samplers.features feedback)).
  set (output_term := λ truth : probing.DataPoint,
         pred ← getitem output_preds (probing.name truth);
         Ok (output_loss_chunked truth pred is_last nb_nodes)).
  set (hint_term := λ truth : probing.DataPoint,
         pred ← getitem hint_preds (probing.name truth);
         Ok (hint_loss_chunked truth pred gt_diffs is_first nb_nodes (decode_diffs self))).
  rewrite (for_each_accumulate _ output_term).
  2:{ intros total truth. unfold output_term.
      by destruct (getitem output_preds (probing.name truth)). }
  destruct (mapM_Ok output_term (samplers.outputs feedback)) as [output_terms ->].
  { eapply Forall_impl; [exact Houts |]. intros truth Hsome. unfold output_term.
    destruct (getitem_is_Some _ _ Hsome) as [pred ->]. simpl. by eexists. }
  simpl. destruct (decode_hints self); simpl; [|by eauto].
  rewrite (for_each_accumulate _ hint_term).
  2:{ intros total truth. unfold hint_term.
      by destruct (getitem hint_preds (probing.name truth)). }
  destruct (mapM_Ok hint_term (samplers.FeaturesChunked_hints (samplers.features feedback)))
    as [hint_terms ->].
  { eapply Forall_impl; [exact (Hhints eq_refl) |]. intros truth Hsome. unfold hint_term.
    destruct (getitem_is_Some _ _ Hsome) as [pred ->]. simpl. by eexists. }
  simpl. by eauto.
Qed.

(** C3. A chunked update applies the chunked network, with the
    initialize-toggle off, to the held recurrent state; when the loss
    computation returns, the recurrent state it hands back is the one the
    network returned, and [self.mp_state] is set to it -- whatever the
    optimizer step does afterwards, which returns parameters and optimizer
    state only. When the loss computation raises, so does the update, and
    the object is as it was. The loss computation returns as soon as the
    held state is set, the node count can be inferred and the predictions
    cover the output fields (and the hint fields under [decode_hints]). *)
Theorem chunked_update_replaces_mp_state (self : Self) (rng_key : PRNGKey) (params : Params)
    (opt_state : OptState) (feedback : samplers.Feedback samplers.FeaturesChunked) :
  (∀ lss new_state,
     BaselineModelChunked.loss self params rng_key feedback = Ok (lss, new_state) →
     (∃ held, mp_state self = Some held ∧
        new_state =
          (NetChunked_apply (nets.config_of (net_fn self)) params rng_key
             (samplers.features feedback) held false false).2)
     ∧ (BaselineModelChunked.update self rng_key params opt_state feedback).1 =
         set_mp_state self (Some new_state)
     ∧ (∀ new_params new_opt_state lss',
          (BaselineModelChunked.update self rng_key params opt_state feedback).2 =
            Ok (new_params, new_opt_state, lss') →
          lss' = lss ∧
          ∃ grads,
            BaselineModel._update_params (set_mp_state self (Some new_state))
              params grads opt_state = Ok (new_params, new_opt_state)))
  ∧ (∀ e,
       BaselineModelChunked.loss self params rng_key feedback = Raise e →
       BaselineModelChunked.update self rng_key params opt_state feedback = (self, Raise e))
  ∧ (∀ held nb_nodes,
       mp_state self = Some held →
       _nb_nodes feedback true = Ok nb_nodes →
       let preds :=
         (NetChunked_apply (nets.config_of (net_fn self)) params rng_key
            (samplers.features feedback) held false false).1 in
       Forall (λ truth, is_Some (preds.1.1.1 !! probing.name truth))
         (samplers.outputs feedback) →
       (decode_hints self = true →
        Forall (λ truth, is_Some (preds.1.1.2 !! probing.name truth))
          (samplers.hints (samplers.features feedback))) →
       ∃ lss new_state,
         BaselineModelChunked.loss self params rng_key feedback = Ok (lss, new_state)).
Proof.
  split; [|split].
  - intros lss new_state Hloss. split; [by eapply chunked_loss_Ok_inv |].
    unfold BaselineModelChunked.update, jax.value_and_grad_aux.
    rewrite Hloss. simpl. split; [done |].
    intros new_params new_opt_state lss' Hstep.
    apply bind_Ok_inv in Hstep as ([new_params' new_opt_state'] & Hstep & Hret).
    simpl in Hret. injection Hret as -> -> ->. eauto.
  - intros e Hloss. unfold BaselineModelChunked.update, jax.value_and_grad_aux.
    by rewrite Hloss.
  - apply chunked_loss_returns.
Qed.

(** C5. On the chunked model [predict] and [verbose_loss] raise
    [NotImplementedError], whatever the object and the arguments. *)
Theorem chunked_predict_and_verbose_loss_unsupported (self : Self) :
  (∀ (rng_key : PRNGKey) (features : samplers.FeaturesChunked),
     BaselineModelChunked.predict self rng_key features = Raise NotImplementedError)
  ∧ (∀ (Args : Type) (args : Args),
       BaselineModelChunked.verbose_loss self args = Raise NotImplementedError).
Proof. split; intros; unfold BaselineModelChunked.predict, BaselineModelChunked.verbose_loss; done. Qed.

End chunked.

(** ** Checkpoints *)

Section checkpoints.
Context `{Backend}.
Context `{!Provider, !Losses, !Optimizer, !Pickle}.

(** When [restore_model] returns, and what it then leaves in the object. *)
Lemma restore_model_Ok_iff (self self' : Self) (file_name : string)
    (only_load_processor : bool) (fs : os.FileSystem) :
  BaselineModel.restore_model self file_name only_load_processor fs = Ok self' ↔
  ∃ blob restored saved_opt_state held,
    os.read_file fs (os_path_join (checkpoint_path self) file_name) = Ok blob ∧
    pickle_load blob = Ok (Some restored, saved_opt_state) ∧
    params self = Some held ∧
    self' =
      set_params_opt_state self
        (Some (hk.merge
                 [held; if only_load_processor then _filter_processor restored else restored]))
        saved_opt_state.
Proof.
  unfold BaselineModel.restore_model. split.
  - intros Hrestore.
    apply bind_Ok_inv in Hrestore as (blob & Hblob & Hrestore).
    apply bind_Ok_inv in Hrestore as ([saved_params saved_opt_state] & Hload & Hrestore).
    apply bind_Ok_inv in Hrestore as (restored_params & Hrestored & Hrestore).
    apply bind_Ok_inv in Hrestore as (held & Hheld & Hrestore).
    apply bind_Ok_inv in Hrestore as (restored' & Hrestored' & Hrestore).
    unfold hk.as_structure in *.
    destruct (params self) as [held'|]; [|discriminate].
    injection Hheld as ->. injection Hrestore as <-. simpl in *.
    destruct saved_params as [restored|], only_load_processor; simpl in *;
      simplify_eq; by eauto 10.
  - intros (blob & restored & saved_opt_state & held & Hblob & Hload & Hheld & ->).
    rewrite Hblob; simpl. rewrite Hload; simpl. rewrite Hheld.
    by destruct only_load_processor.
Qed.

(** What [save_model] leaves in the file system when it returns. *)
Lemma save_model_Ok_inv (self : Self) (file_name : string) (fs fs' : os.FileSystem) :
  BaselineModel.save_model self file_name fs = Ok fs' →
  checkpoint_path self ∈ os.dirs fs' ∧
  os.read_file fs' (os_path_join (checkpoint_path self) file_name) =
    Ok (pickle_dump (params self, opt_state self)).
Proof.
  unfold BaselineModel.save_model. intros Hsave.
  apply bind_Ok_inv in Hsave as (fs1 & Hmk & Hwrite).
  unfold os.makedirs in Hmk. repeat case_bool_decide; try discriminate.
  injection Hmk as <-.
  unfold os.write_file in Hwrite. simpl in Hwrite.
  case_bool_decide as Hdir; [discriminate |]. injection Hwrite as <-.
  unfold os.read_file; simpl. split; [set_solver |].
  rewrite bool_decide_eq_false_2 by done. by rewrite lookup_insert_eq.
Qed.

(** C7, as amended. Saving a model whose parameters have been initialised
    and then restoring the checkpoint, with the processor-only flag unset,
    into a model that has the same checkpoint directory, has itself been
    initialised and holds no parameter the saved model lacks, leaves that
    model with the saved parameters, leaf for leaf (and as the very same
    mapping when the saved one has no module without a parameter), and
    with the saved optimizer state. The save creates the checkpoint
    directory and stores the pickled pair under
    [os.path.join(checkpoint_path, file_name)], which for a relative file
    name and a directory without a trailing separator is
    [checkpoint_path/file_name]. *)
Theorem save_then_restore_roundtrip (saved fresh : Self) (file_name : string)
    (fs fs' : os.FileSystem) (saved_params held : Params) :
  (∀ state, pickle_load (pickle_dump state) = Ok state) →
  params saved = Some saved_params →
  params fresh = Some held →
  checkpoint_path fresh = checkpoint_path saved →
  (∀ m n, is_Some (hk.leaf held m n) → is_Some (hk.leaf saved_params m n)) →
  BaselineModel.save_model saved file_name fs = Ok fs' →
  checkpoint_path saved ∈ os.dirs fs'
  ∧ os.files fs' !! os_path_join (checkpoint_path saved) file_name =
      Some (pickle_dump (params saved, opt_state saved))
  ∧ (String.prefix "/" file_name = false → checkpoint_path saved ≠ "" →
     endswith_sep (checkpoint_path saved) = false →
     os_path_join (checkpoint_path saved) file_name =
       (checkpoint_path saved ++ "/" ++ file_name)%string)
  ∧ ∃ restored restored_params,
      BaselineModel.restore_model fresh file_name false fs' = Ok restored
      ∧ params restored = Some restored_params
      ∧ (∀ m n, hk.leaf restored_params m n = hk.leaf saved_params m n)
      ∧ (hk.no_empty_module saved_params → restored_params = saved_params)
      ∧ opt_state restored = opt_state saved.
Proof.
  intros Hpickle Hsaved Hfresh Hpath Hsub Hsave.
  destruct (save_model_Ok_inv _ _ _ _ Hsave) as [Hdir Hread].
  split; [done |]. split.
  { unfold os.read_file in Hread. case_bool_decide; [discriminate |].
    by destruct (os.files fs' !! _); simplify_eq. }
  split.
  { intros Hrel Hne Hsep. unfold os_path_join.
    rewrite Hrel, Hsep, bool_decide_eq_false_2 by done. done. }
  assert (Hleaf : ∀ m n,
    hk.leaf (hk.merge [held; saved_params]) m n = hk.leaf saved_params m n).
  { intros m n. rewrite leaf_merge.
    destruct (hk.leaf saved_params m n) as [v|] eqn:Hv; [done |].
    destruct (hk.leaf held m n) as [w|] eqn:Hw; [|done].
    destruct (Hsub m n) as [? ?]; [by rewrite Hw | congruence]. }
  eexists _, _. split.
  { apply restore_model_Ok_iff. exists (pickle_dump (params saved, opt_state saved)).
    eexists saved_params, (opt_state saved), held.
    rewrite Hpath, Hread, Hpickle, Hsaved. done. }
  simpl. split; [done |]. split; [exact Hleaf |]. split; [|done].
  intros Hne. apply structure_eq_of_leaves; [apply merge_no_empty_module | done | exact Hleaf].
Qed.

(** C8. A processor-only restore that returns leaves every parameter
    outside the processor modules as it was before the call, present or
    absent alike; inside the processor modules a parameter takes the
    checkpoint's value when the checkpoint has one and keeps its own
    otherwise. The call returns as soon as the model holds parameters and
    the checkpoint file holds a pickled pair with parameters; a call that
    raises assigns nothing. *)
Theorem restore_processor_only_keeps_other_parameters (self : Self) (file_name : string)
    (fs : os.FileSystem) :
  (∀ self',
     BaselineModel.restore_model self file_name true fs = Ok self' →
     ∃ held held' blob restored saved_opt_state,
       params self = Some held ∧ params self' = Some held'
       ∧ os.read_file fs (os_path_join (checkpoint_path self) file_name) = Ok blob
       ∧ pickle_load blob = Ok (Some restored, saved_opt_state)
       ∧ (∀ m n, str_contains "construct_processor" m = false →
            hk.leaf held' m n = hk.leaf held m n)
       ∧ (∀ m n, str_contains "construct_processor" m = true →
            hk.leaf held' m n =
            match hk.leaf restored m n with
            | Some v => Some v
            | None => hk.leaf held m n
            end))
  ∧ (∀ held blob restored saved_opt_state,
       params self = Some held →
       os.read_file fs (os_path_join (checkpoint_path self) file_name) = Ok blob →
       pickle_load blob = Ok (Some restored, saved_opt_state) →
       ∃ self', BaselineModel.restore_model self file_name true fs = Ok self').
Proof.
  split.
  - intros self' Hrestore.
    apply restore_model_Ok_iff in Hrestore
      as (blob & restored & saved_opt_state & held & Hblob & Hload & Hheld & ->).
    exists held, (hk.merge [held; _filter_processor restored]), blob, restored, saved_opt_state.
    repeat split; try done.
    + intros m n Hother. rewrite leaf_merge. unfold _filter_processor.
      rewrite leaf_filter, Hother. by destruct (hk.leaf restored m n).
    + intros m n Hproc. rewrite leaf_merge. unfold _filter_processor.
      rewrite leaf_filter, Hproc. by destruct (hk.leaf restored m n).
  - intros held blob restored saved_opt_state Hheld Hblob Hload.
    eexists. apply restore_model_Ok_iff. by eauto 10.
Qed.

(** C9. A restore that returns has set [self.opt_state] to the optimizer
    state stored in the checkpoint, whole, whether or not the
    processor-only flag is set and whatever optimizer state the model held;
    the call returns under the same conditions for either value of the
    flag. *)
Theorem restore_replaces_opt_state (self : Self) (file_name : string)
    (only_load_processor : bool) (fs : os.FileSystem) :
  (∀ self',
     BaselineModel.restore_model self file_name only_load_processor fs = Ok self' →
     ∃ blob saved_params saved_opt_state,
       os.read_file fs (os_path_join (checkpoint_path self) file_name) = Ok blob
       ∧ pickle_load blob = Ok (saved_params, saved_opt_state)
       ∧ opt_state self' = saved_opt_state)
  ∧ (∀ held blob restored saved_opt_state,
       params self = Some held →
       os.read_file fs (os_path_join (checkpoint_path self) file_name) = Ok blob →
       pickle_load blob = Ok (Some restored, saved_opt_state) →
       ∃ self',
         BaselineModel.restore_model self file_name only_load_processor fs = Ok self'
         ∧ opt_state self' = saved_opt_state).
Proof.
  split.
  - intros self' Hrestore.
    apply restore_model_Ok_iff in Hrestore
      as (blob & restored & saved_opt_state & held & Hblob & Hload & Hheld & ->).
    by exists blob, (Some restored), saved_opt_state.
  - intros held blob restored saved_opt_state Hheld Hblob Hload.
    eexists. split; [apply restore_model_Ok_iff; by eauto 10 | done].
Qed.

End checkpoints.

(** ** The optimizer step *)

Section update_params.
Context `{Backend}.
Context `{!Provider, !Losses, !Optimizer, !Pickle}.

Lemma leaf_apply_updates (params updates new_params : Params) m n :
  optax.apply_updates params updates = Ok new_params →
  hk.leaf new_params m n =
  match hk.leaf params m n, hk.leaf updates m n with
  | Some p, Some u => Some (tensor_add p u)
  | _, _ => None
  end.
Proof.
  unfold optax.apply_updates. case_decide; [|done]. intros [= <-].
  unfold hk.leaf. rewrite map_lookup_zip_with.
  destruct (params !! m) as [bundle|], (updates !! m) as [bundle'|]; simpl; try done.
  - rewrite map_lookup_zip_with. by destruct (bundle !! n), (bundle' !! n).
  - by destruct (bundle !! n).
Qed.

(** Trees of the same structure have the same leaves present. *)
Lemma tree_structure_leaf (params updates : Params) m n :
  optax.tree_structure params = optax.tree_structure updates →
  is_Some (hk.leaf params m n) → is_Some (hk.leaf updates m n).
Proof.
  intros Hsame. unfold hk.leaf.
  assert (Hm := f_equal (.!! m) Hsame).
  unfold optax.tree_structure in Hm. rewrite !lookup_fmap in Hm.
  destruct (params !! m) as [bundle|], (updates !! m) as [bundle'|]; simpl in *;
    try done; try (by intros [? ?]).
  injection Hm as Hdom. rewrite <- !elem_of_dom. by rewrite Hdom.
Qed.

(** What the optimizer step does under [freeze_processor]: a parameter of
    a processor module moves by its update, every other parameter stays. *)
Lemma frozen_update_leaves (self : Self) (params grads new_params : Params)
    (opt_state new_opt_state : OptState) m n :
  _freeze_processor self = true →
  BaselineModel._update_params self params grads opt_state = Ok (new_params, new_opt_state) →
  hk.leaf new_params m n =
  if str_contains "construct_processor" m
  then match hk.leaf params m n, hk.leaf (optax.update (opt self) grads opt_state).1 m n with
       | Some p, Some u => Some (tensor_add p u)
       | _, _ => hk.leaf params m n
       end
  else hk.leaf params m n.
Proof.
  unfold BaselineModel._update_params. intros ->.
  destruct (optax.update (opt self) grads opt_state) as [updates opt_state'].
  intros Hstep. apply bind_Ok_inv in Hstep as (applied & Happlied & [= <- <-]).
  rewrite leaf_merge, (leaf_apply_updates _ _ _ _ _ Happlied).
  unfold _filter_processor. rewrite !leaf_filter. simpl.
  destruct (str_contains "construct_processor" m),
    (hk.leaf params m n), (hk.leaf updates m n); done.
Qed.

End update_params.

(** ** The model at work on the small backend *)

Section examples.
Import Toy.

Example construct_toy_BaselineModel decode_hints decode_diffs freeze_processor :
  construct_toy BaselineModel._create_net_fns decode_hints decode_diffs freeze_processor =
  Ok (constructed false decode_hints decode_diffs freeze_processor).
Proof. destruct decode_hints, decode_diffs, freeze_processor; by_computation. Qed.

Example construct_toy_BaselineModelChunked :
  construct_toy BaselineModelChunked._create_net_fns true false false =
  Ok (constructed true true false false).
Proof. by_computation. Qed.

Example initialised_holds_toy_params :
  params (initialised true false false) = Some toy_params
  ∧ opt_state (initialised true false false) = Some 0
  ∧ mp_state initialised_chunked = Some 1.
Proof. repeat split; by_computation. Qed.

Example save_model_toy :
  BaselineModel.save_model (initialised true false false) "best.pkl" empty_fs = Ok saved_fs.
Proof. by_computation. Qed.

Example nb_nodes_toy :
  _nb_nodes toy_feedback false = Ok 5 ∧ _nb_nodes toy_feedback_chunked true = Ok 5.
Proof. split; by_computation. Qed.

Example loss_toy decode_hints decode_diffs :
  BaselineModel.loss (initialised decode_hints decode_diffs false) toy_params 0%Z toy_feedback =
  Ok (1 + (if decode_diffs then 10 else 0) + (if decode_hints then 100 else 0))%Z.
Proof. destruct decode_hints, decode_diffs; by_computation. Qed.

(** C1, on the code. With [freeze_processor=True] an update adds the
    optimizer's update to the parameter of the processor module and leaves
    the parameter of the encoder module as it was: the model trains the
    processor and freezes everything else. *)
Theorem frozen_update_trains_the_processor :
  _freeze_processor (initialised true false true) = true
  ∧ ∃ new_params new_opt_state lss,
      BaselineModel.update (initialised true false true) 0%Z toy_params 0 toy_feedback =
        Ok (new_params, new_opt_state, lss)
      ∧ hk.leaf toy_params "net/construct_processor" "w" = Some (scalar_tensor 1)
      ∧ hk.leaf new_params "net/construct_processor" "w" = Some (scalar_tensor 2)
      ∧ hk.leaf toy_params "net/encoder" "w" = Some (scalar_tensor 10)
      ∧ hk.leaf new_params "net/encoder" "w" = Some (scalar_tensor 10).
Proof.
  split; [reflexivity |].
  exists {[ "net/construct_processor" := {[ "w" := scalar_tensor 2 ]};
            "net/encoder" := {[ "w" := scalar_tensor 10 ]} ]}, 1, 101%Z.
  repeat split; by_computation.
Qed.

(** A run of C2's theorem: with [decode_hints] unset and [decode_diffs]
    set the loss is the output term plus the diff term. *)
Lemma loss_is_sum_of_enabled_terms_witness :
  decode_hints (initialised false true false) = false
  ∧ BaselineModel.loss (initialised false true false) toy_params 0%Z toy_feedback = Ok 11%Z.
Proof.
  split; [reflexivity |].
  destruct (loss_is_sum_of_enabled_terms (initialised false true false) toy_params 0%Z
              toy_feedback) as [_ Hoff].
  rewrite (Hoff eq_refl). by_computation.
Defined.

(** A run of C3's theorem: the held recurrent state moves from the one
    [init] made to the one the network returned. *)
Lemma chunked_update_replaces_mp_state_witness :
  mp_state initialised_chunked = Some 1
  ∧ mp_state
      (BaselineModelChunked.update initialised_chunked 0%Z toy_params 0
         toy_feedback_chunked).1 = Some 2.
Proof.
  split; [by_computation |].
  destruct (chunked_update_replaces_mp_state initialised_chunked 0%Z toy_params 0
              toy_feedback_chunked) as [Hreturns _].
  destruct (Hreturns 101%Z 2) as (_ & -> & _); [by_computation | reflexivity].
Defined.

(** A run of C4's theorem: a graph field first, then the node field whose
    second axis has 5 entries. *)
Lemma nb_nodes_first_node_or_edge_field_witness : _nb_nodes toy_feedback false = Ok 5.
Proof.
  destruct (nb_nodes_first_node_or_edge_field toy_feedback false) as [Hfirst _].
  apply (Hfirst [field "g" specs.GRAPH [4; 3]] (field "pos" specs.NODE [4; 5])
           [field "A" specs.EDGE [4; 5; 5]] 5).
  - reflexivity.
  - repeat constructor. by apply (bool_decide_unpack _).
  - by apply (bool_decide_unpack _).
  - reflexivity.
Defined.

Lemma toy_params_no_empty_module : hk.no_empty_module toy_params.
Proof.
  replace toy_params with (hk.to_haiku_dict (hk.traverse toy_params)) by by_computation.
  apply to_haiku_dict_no_empty_module.
Qed.

Lemma other_params_leaves m n :
  is_Some (hk.leaf other_params m n) → is_Some (hk.leaf toy_params m n).
Proof.
  apply (tree_structure_leaf (H:=backend) other_params toy_params m n). by_computation.
Qed.

(** A run of C7's theorem: the checkpoint of the initialised model,
    restored into the model that holds [other_params]. *)
Lemma save_then_restore_roundtrip_witness :
  BaselineModel.save_model (initialised true false false) "best.pkl" empty_fs = Ok saved_fs
  ∧ ∃ restored,
      BaselineModel.restore_model fresh "best.pkl" false saved_fs = Ok restored
      ∧ params restored = Some toy_params
      ∧ opt_state restored = Some 0.
Proof.
  assert (Hsave : BaselineModel.save_model (initialised true false false) "best.pkl" empty_fs =
                  Ok saved_fs) by by_computation.
  split; [exact Hsave |].
  destruct (save_then_restore_roundtrip (initialised true false false) fresh "best.pkl"
              empty_fs saved_fs toy_params other_params)
    as (_ & _ & _ & restored & restored_params & Hrestore & Hparams & _ & Heq & Hopt).
  - intros state. reflexivity.
  - by_computation.
  - by_computation.
  - reflexivity.
  - exact other_params_leaves.
  - exact Hsave.
  - exists restored. split; [exact Hrestore |].
    rewrite Hparams, (Heq toy_params_no_empty_module), Hopt. split; [reflexivity | by_computation].
Defined.

(** C7, as stated, fails. Restoring the checkpoint of the initialised
    model into a model of the same hyper-parameters as the constructor
    returns it raises, because that model holds no parameters to merge
    into; and so does restoring, into an initialised model, the checkpoint
    of a model saved before [init]. *)
Lemma restore_needs_initialised_parameters :
  construct_toy BaselineModel._create_net_fns true false false =
    Ok (constructed false true false false)
  ∧ BaselineModel.save_model (initialised true false false) "best.pkl" empty_fs = Ok saved_fs
  ∧ BaselineModel.restore_model (constructed false true false false) "best.pkl" false
      saved_fs = Raise (TypeError "'NoneType' object is not iterable")
  ∧ BaselineModel.save_model (constructed false true false false) "best.pkl" empty_fs =
      Ok saved_before_init_fs
  ∧ BaselineModel.restore_model fresh "best.pkl" false saved_before_init_fs =
      Raise (TypeError "'NoneType' object is not iterable").
Proof. repeat split; by_computation. Qed.

(** A run of C8's theorem: the processor-only restore takes the processor
    parameter from the checkpoint and keeps the encoder parameter. *)
Lemma restore_processor_only_keeps_other_parameters_witness :
  ∃ self' held',
    BaselineModel.restore_model fresh "best.pkl" true saved_fs = Ok self'
    ∧ params self' = Some held'
    ∧ hk.leaf other_params "net/encoder" "w" = Some (scalar_tensor 70)
    ∧ hk.leaf held' "net/encoder" "w" = Some (scalar_tensor 70)
    ∧ hk.leaf held' "net/construct_processor" "w" = Some (scalar_tensor 1).
Proof.
  destruct (restore_processor_only_keeps_other_parameters fresh "best.pkl" saved_fs)
    as [Hframe Hreturns].
  destruct (Hreturns other_params (Some toy_params, Some 0) toy_params (Some 0))
    as [self' Hself']; [by_computation | by_computation | reflexivity |].
  destruct (Hframe self' Hself')
    as (held & held' & blob & restored & saved_opt_state
        & Hheld & Hheld' & Hblob & Hload & Hother & Hproc).
  assert (held = other_params) as ->.
  { assert (Hfresh : params fresh = Some other_params) by by_computation. congruence. }
  assert (restored = toy_params) as ->.
  { assert (Hread : os.read_file saved_fs (os_path_join (checkpoint_path fresh) "best.pkl") =
                    Ok (Some toy_params, Some 0)) by by_computation.
    rewrite Hread in Hblob. injection Hblob as <-. simpl in Hload. congruence. }
  exists self', held'. split; [exact Hself' |]. split; [exact Hheld' |].
  split; [by_computation |]. split.
  - rewrite (Hother "net/encoder" "w") by by_computation. by_computation.
  - rewrite (Hproc "net/construct_processor" "w") by by_computation. by_computation.
Defined.

(** A run of C9's theorem: the processor-only restore replaces the held
    optimizer state by the checkpoint's. *)
Lemma restore_replaces_opt_state_witness :
  opt_state fresh = Some 9
  ∧ ∃ self',
      BaselineModel.restore_model fresh "best.pkl" true saved_fs = Ok self'
      ∧ opt_state self' = Some 0.
Proof.
  split; [by_computation |].
  destruct (restore_replaces_opt_state fresh "best.pkl" true saved_fs) as [_ Hreturns].
  apply (Hreturns other_params (Some toy_params, Some 0) toy_params (Some 0));
    [by_computation | by_computation | reflexivity].
Defined.

End examples.

(** * Further properties of the code *)

(** ** Which parameters [_filter_processor] selects *)

Section filter_processor.
Context `{Backend}.

Lemma prefix_true_iff (needle haystack : string) :
  String.prefix needle haystack = true ↔ ∃ suffix, haystack = (needle ++ suffix)%string.
Proof.
  revert haystack. induction needle as [|c needle IH]; intros haystack.
  - split; [by exists haystack | by destruct haystack].
  - destruct haystack as [|c' haystack]; simpl.
    + split; [done | by intros [suffix ?]].
    + destruct (Ascii.ascii_dec c c') as [->|Hc].
      * rewrite IH. split; intros [suffix Hs]; exists suffix.
        -- by rewrite Hs.
        -- by injection Hs.
      * split; [done | intros [suffix [=]]; congruence].
Qed.

(** [str_contains] is Python's [in] on strings: the needle occurs
    somewhere in the haystack. *)
Lemma str_contains_true_iff (needle haystack : string) :
  str_contains needle haystack = true ↔
  ∃ before after, haystack = (before ++ needle ++ after)%string.
Proof.
  assert (Hunfold : ∀ h, str_contains needle h =
    String.prefix needle h ||
    match h with EmptyString => false | String _ rest => str_contains needle rest end)
    by (by intros []).
  induction haystack as [|c haystack IH]; rewrite Hunfold.
  - rewrite orb_false_r, prefix_true_iff. split.
    + intros [suffix Hs]. by exists "", suffix.
    + intros (before & after & Hs). exists after.
      destruct before; [done | discriminate].
  - rewrite orb_true_iff, prefix_true_iff, IH. split.
    + intros [[suffix Hs]|(before & after & ->)].
      * by exists "", suffix.
      * by exists (String c before), after.
    + intros (before & after & Hs). destruct before as [|c' before]; simpl in Hs.
      * left. by exists after.
      * right. injection Hs as -> ->. by exists before, after.
Qed.

(** X1. [_filter_processor] keeps exactly the parameters of the modules
    whose name has ['construct_processor'] somewhere in it, with their
    values; the result has no module without a parameter, and filtering
    twice is filtering once. *)
Theorem filter_processor_selects_by_substring (params : Params) :
  (∀ m n v,
     hk.leaf (_filter_processor params) m n = Some v ↔
     hk.leaf params m n = Some v ∧
     ∃ before after, m = (before ++ "construct_processor" ++ after)%string)
  ∧ hk.no_empty_module (_filter_processor params)
  ∧ _filter_processor (_filter_processor params) = _filter_processor params.
Proof.
  assert (Hleaf : ∀ p m n v,
    hk.leaf (_filter_processor p) m n = Some v ↔
    hk.leaf p m n = Some v ∧ str_contains "construct_processor" m = true).
  { intros p m n v. unfold _filter_processor. rewrite leaf_filter.
    destruct (hk.leaf p m n) as [w|]; [|intuition congruence].
    destruct (str_contains "construct_processor" m); intuition congruence. }
  split; [|split].
  - intros m n v. by rewrite Hleaf, str_contains_true_iff.
  - apply to_haiku_dict_no_empty_module.
  - apply structure_eq_of_leaves; try apply to_haiku_dict_no_empty_module.
    intros m n. apply option_eq. intros v. rewrite !Hleaf. tauto.
Qed.

End filter_processor.

(** ** The optimizer step and training under [freeze_processor] *)

Section optimizer_step.
Context `{Backend}.
Context `{!Provider, !Losses, !Optimizer, !Pickle}.

(** X2. Under [freeze_processor] a returning optimizer step leaves every
    parameter of a module without ['construct_processor'] in its name as it
    was, and moves a parameter of a processor module by the update the
    optimizer computed for it. *)
Theorem frozen_update_moves_processor_only (self : Self) (params grads new_params : Params)
    (opt_state new_opt_state : OptState) :
  _freeze_processor self = true →
  BaselineModel._update_params self params grads opt_state = Ok (new_params, new_opt_state) →
  (∀ m n, str_contains "construct_processor" m = false →
     hk.leaf new_params m n = hk.leaf params m n)
  ∧ (∀ m n p u, str_contains "construct_processor" m = true →
       hk.leaf params m n = Some p →
       hk.leaf (optax.update (opt self) grads opt_state).1 m n = Some u →
       hk.leaf new_params m n = Some (tensor_add p u)).
Proof.
  intros Hfrozen Hstep. split.
  - intros m n Hm. rewrite (frozen_update_leaves _ _ _ _ _ _ m n Hfrozen Hstep).
    by rewrite Hm.
  - intros m n p u Hm Hp Hu. rewrite (frozen_update_leaves _ _ _ _ _ _ m n Hfrozen Hstep).
    by rewrite Hm, Hp, Hu.
Qed.

Lemma apply_updates_Ok_structure (params updates new_params : Params) :
  optax.apply_updates params updates = Ok new_params →
  optax.tree_structure params = optax.tree_structure updates.
Proof. unfold optax.apply_updates. by case_decide. Qed.

(** A returning optimizer step keeps the set of parameters. *)
Lemma update_params_leaves_present (self : Self) (params grads new_params : Params)
    (opt_state new_opt_state : OptState) m n :
  BaselineModel._update_params self params grads opt_state = Ok (new_params, new_opt_state) →
  is_Some (hk.leaf new_params m n) ↔ is_Some (hk.leaf params m n).
Proof.
  intros Hstep. destruct (_freeze_processor self) eqn:Hfrozen.
  - rewrite (frozen_update_leaves _ _ _ _ _ _ m n Hfrozen Hstep).
    destruct (str_contains "construct_processor" m); [|done].
    destruct (hk.leaf params m n) as [p|]; [|done].
    destruct (hk.leaf _ m n); split; by eauto.
  - revert Hstep. unfold BaselineModel._update_params. rewrite Hfrozen.
    destruct (optax.update (opt self) grads opt_state) as [updates opt_state'].
    intros Hstep. apply bind_Ok_inv in Hstep as (applied & Happlied & [= <- <-]).
    pose proof (apply_updates_Ok_structure _ _ _ Happlied) as Hsame.
    rewrite (leaf_apply_updates _ _ _ m n Happlied).
    pose proof (tree_structure_leaf params updates m n Hsame) as Hpu.
    destruct (hk.leaf params m n) as [p|]; [|by split; intros [? ?]].
    destruct Hpu as [u Hu]; [by eauto |]. simpl in Hu. rewrite Hu. split; by eauto.
Qed.

(** X3. A returning optimizer step never adds or removes a parameter, and
    the optimizer state it returns is the one the optimizer computed from
    the full gradients, frozen or not. Without [freeze_processor] every
    parameter moves by its update, and the step raises exactly when the
    updates do not have the structure of the parameters. *)
Theorem update_params_keeps_parameter_set (self : Self) (params grads : Params)
    (opt_state : OptState) :
  (∀ new_params new_opt_state,
     BaselineModel._update_params self params grads opt_state =
       Ok (new_params, new_opt_state) →
     new_opt_state = (optax.update (opt self) grads opt_state).2
     ∧ (∀ m n, is_Some (hk.leaf new_params m n) ↔ is_Some (hk.leaf params m n))
     ∧ (_freeze_processor self = false →
        ∀ m n p, hk.leaf params m n = Some p →
          ∃ u, hk.leaf (optax.update (opt self) grads opt_state).1 m n = Some u
               ∧ hk.leaf new_params m n = Some (tensor_add p u)))
  ∧ (_freeze_processor self = false →
     (∃ e, BaselineModel._update_params self params grads opt_state = Raise e) ↔
     optax.tree_structure params ≠
       optax.tree_structure (optax.update (opt self) grads opt_state).1).
Proof.
  split.
  - intros new_params new_opt_state Hstep.
    destruct (_freeze_processor self) eqn:Hfrozen.
    + split; [|split; [|done]].
      * revert Hstep. unfold BaselineModel._update_params. rewrite Hfrozen.
        destruct (optax.update (opt self) grads opt_state) as [updates opt_state'].
        intros Hstep. by apply bind_Ok_inv in Hstep as (? & _ & [= _ <-]).
      * intros m n. by eapply update_params_leaves_present.
    + pose proof (λ m n, update_params_leaves_present _ _ _ _ _ _ m n Hstep) as Hpresent.
      revert Hstep. unfold BaselineModel._update_params. rewrite Hfrozen.
      destruct (optax.update (opt self) grads opt_state) as [updates opt_state'].
      intros Hstep. apply bind_Ok_inv in Hstep as (applied & Happlied & [= <- <-]).
      pose proof (apply_updates_Ok_structure _ _ _ Happlied) as Hsame.
      split; [done |]. split; [exact Hpresent |].
      intros _ m n p Hp. simpl.
      destruct (tree_structure_leaf params updates m n Hsame) as [u Hu];
        [by rewrite Hp |].
      exists u. split; [done |].
      by rewrite (leaf_apply_updates _ _ _ m n Happlied), Hp, Hu.
  - intros Hfrozen. unfold BaselineModel._update_params. rewrite Hfrozen.
    destruct (optax.update (opt self) grads opt_state) as [updates opt_state'].
    simpl. unfold optax.apply_updates. case_decide as Hsame; simpl.
    + split; [by intros [e ?] | done].
    + split; [done | by eauto].
Qed.

Lemma feedback_Ok_inv (self self' : Self) (rng_key : PRNGKey)
    (feedback : samplers.Feedback samplers.Features) (cur_loss : Scalar) :
  BaselineModel.feedback self rng_key feedback = Ok (self', cur_loss) →
  ∃ held held_opt_state grads new_params new_opt_state,
    params self = Some held ∧ opt_state self = Some held_opt_state
    ∧ BaselineModel.loss self held rng_key feedback = Ok cur_loss
    ∧ BaselineModel._update_params self held grads held_opt_state =
        Ok (new_params, new_opt_state)
    ∧ self' = set_params_opt_state self (Some new_params) (Some new_opt_state).
Proof.
  unfold BaselineModel.feedback, BaselineModel.update, jax.value_and_grad.
  intros Hfeedback.
  apply bind_Ok_inv in Hfeedback as (held & Hheld & Hfeedback).
  apply bind_Ok_inv in Hfeedback as (held_opt_state & Hopt & Hfeedback).
  apply bind_Ok_inv in Hfeedback as ([[new_params new_opt_state] lss] & Hupdate & Hret).
  apply bind_Ok_inv in Hupdate as ([lss' grads] & Hloss & Hupdate).
  apply bind_Ok_inv in Hloss as (value & Hvalue & [= <- <-]).
  apply bind_Ok_inv in Hupdate as ([new_params' new_opt_state'] & Hstep & [= <- <- <-]).
  simpl in Hret. injection Hret as <- <-.
  unfold hk.as_structure in Hheld. unfold BaselineModel.not_None in Hopt.
  destruct (params self) as [held'|]; [|discriminate].
  destruct (opt_state self) as [held_opt_state'|]; [|discriminate].
  simplify_eq. by eauto 10.
Qed.

(** X4. Training under [freeze_processor]: after any number of returning
    [feedback] calls every parameter of a module without
    ['construct_processor'] in its name is what it was before the first
    call, and no parameter has appeared or disappeared. *)
Theorem frozen_training_keeps_other_parameters
    (steps : list (PRNGKey * samplers.Feedback samplers.Features)) (self self' : Self) :
  _freeze_processor self = true →
  feedback_many self steps = Ok self' →
  _freeze_processor self' = true
  ∧ (∀ m n, str_contains "construct_processor" m = false →
       (held ← params self'; hk.leaf held m n) = (held ← params self; hk.leaf held m n))
  ∧ (∀ m n,
       is_Some (held ← params self'; hk.leaf held m n) ↔
       is_Some (held ← params self; hk.leaf held m n)).
Proof.
  revert self. induction steps as [|[rng_key feedback] steps IH]; intros self Hfrozen; simpl.
  - by intros [= <-].
  - intros Htrain.
    apply bind_Ok_inv in Htrain as ([self1 cur_loss] & Hfeedback & Htrain).
    apply feedback_Ok_inv in Hfeedback
      as (held & held_opt_state & grads & new_params & new_opt_state
          & Hheld & _ & _ & Hstep & ->).
    destruct (IH (set_params_opt_state self (Some new_params) (Some new_opt_state))
                Hfrozen Htrain) as (Hfrozen' & Hother & Hsame).
    split; [done |]. split.
    + intros m n Hm. rewrite (Hother m n Hm), Hheld. simpl.
      by rewrite (frozen_update_leaves _ _ _ _ _ _ m n Hfrozen Hstep), Hm.
    + intros m n. rewrite (Hsame m n), Hheld. simpl.
      by eapply update_params_leaves_present.
Qed.

End optimizer_step.

(** ** More on node-count inference and construction *)

Section construction_contents.
Context `{Backend}.
Context `{!Optimizer}.

(** X5. Node-count inference stops at the first node- or edge-located
    input field: when that field's shape has no nodes axis the call raises
    [IndexError], whatever fields follow it. *)
Theorem nb_nodes_raises_on_short_first_field `{!samplers.FeaturesLike F}
    (feedback : samplers.Feedback F) (is_chunked : bool)
    (pre post : list probing.DataPoint) (inp : probing.DataPoint) :
  samplers.inputs (samplers.features feedback) = pre ++ inp :: post →
  Forall (λ other, probing.location other ∉ [specs.NODE; specs.EDGE]) pre →
  probing.location inp ∈ [specs.NODE; specs.EDGE] →
  (length (shape (probing.data inp)) ≤ (if is_chunked then 2 else 1))%nat →
  _nb_nodes feedback is_chunked = Raise IndexError.
Proof.
  intros Hinputs Hpre Hinp Hshort. unfold _nb_nodes. rewrite Hinputs.
  rewrite _nb_nodes_scan_skip.
  2:{ eapply Forall_impl; [exact Hpre |]. intros other Hother.
      unfold is_node_or_edge. by apply bool_decide_eq_false. }
  simpl. unfold is_node_or_edge. rewrite bool_decide_eq_true_2 by done.
  unfold tuple_index.
  destruct is_chunked; by rewrite (lookup_ge_None_2 _ _ Hshort).
Qed.

Lemma tuple_last_Ok {A} (t : list A) (x : A) : tuple_last t = Ok x ↔ last t = Some x.
Proof. unfold tuple_last. destruct (last t); split; congruence. Qed.

Lemma tuple_last_Raise {A} (t : list A) (e : PyError) : tuple_last t = Raise e → t = [].
Proof. unfold tuple_last. destruct (last t) eqn:Hlast; [done |]. by apply last_None in Hlast. Qed.

Lemma record_dims_app (nb_dims : gmap string nat) (fields fields' : list probing.DataPoint) :
  record_dims nb_dims (fields ++ fields') =
  (nb_dims' ← record_dims nb_dims fields; record_dims nb_dims' fields').
Proof.
  unfold record_dims. revert nb_dims.
  induction fields as [|dp fields IH]; intros nb_dims; simpl; [done |].
  destruct (tuple_last (shape (probing.data dp))); simpl; [apply IH | done].
Qed.

Lemma record_dims_returns_iff (nb_dims : gmap string nat) (fields : list probing.DataPoint) :
  (∃ nb_dims', record_dims nb_dims fields = Ok nb_dims') ↔
  Forall (λ dp, shape (probing.data dp) ≠ []) fields.
Proof.
  unfold record_dims. revert nb_dims.
  induction fields as [|dp fields IH]; intros nb_dims; simpl.
  - split; [by constructor | by eauto].
  - rewrite Forall_cons.
    destruct (tuple_last (shape (probing.data dp))) as [dim|e] eqn:Hlast; simpl.
    + rewrite (IH (<[probing.name dp := dim]> nb_dims)).
      split; [intros Hok; split; [|done] | by intros [_ ?]].
      intros Hnil. by rewrite Hnil in Hlast.
    + apply tuple_last_Raise in Hlast. split; [by intros [? ?] | by intros [? _]].
Qed.

Lemma record_dims_lookup (fields : list probing.DataPoint) (nb_dims nb_dims' : gmap string nat) :
  record_dims nb_dims fields = Ok nb_dims' →
  (∀ key, key ∉ probing.name <$> fields → nb_dims' !! key = nb_dims !! key)
  ∧ (∀ pre dp post,
       fields = pre ++ dp :: post → probing.name dp ∉ probing.name <$> post →
       nb_dims' !! probing.name dp = last (shape (probing.data dp))).
Proof.
  unfold record_dims. revert nb_dims.
  induction fields as [|dp0 fields IH]; intros nb_dims; simpl.
  - intros [= <-]. split; [done |]. intros pre dp post Hnil. by destruct pre.
  - destruct (tuple_last (shape (probing.data dp0))) as [dim|e] eqn:Hlast; simpl; [|done].
    apply tuple_last_Ok in Hlast.
    intros Hrest. destruct (IH _ Hrest) as [Hfresh Hlastwins]. split.
    + intros key Hkey. apply not_elem_of_cons in Hkey as [Hne Hkey].
      by rewrite (Hfresh key Hkey), lookup_insert_ne.
    + intros pre dp post Hsplit Hpost. destruct pre as [|dp1 pre]; simpl in Hsplit.
      * injection Hsplit as <- <-.
        by rewrite (Hfresh _ Hpost), lookup_insert_eq.
      * injection Hsplit as <- ->. by eapply Hlastwins.
Qed.

Lemma record_dims_names (fields : list probing.DataPoint) (nb_dims nb_dims' : gmap string nat) :
  record_dims nb_dims fields = Ok nb_dims' →
  ∀ key, is_Some (nb_dims' !! key) ↔
         is_Some (nb_dims !! key) ∨ key ∈ probing.name <$> fields.
Proof.
  unfold record_dims. revert nb_dims.
  induction fields as [|dp0 fields IH]; intros nb_dims; simpl.
  - intros [= <-] key. rewrite elem_of_nil. tauto.
  - destruct (tuple_last (shape (probing.data dp0))) as [dim|e]; simpl; [|done].
    intros Hrest key. rewrite (IH _ Hrest key), lookup_insert_is_Some, elem_of_cons.
    destruct (decide (probing.name dp0 = key)) as [->|Hne]; [tauto |].
    split; [intros [[?|[_ ?]]|?]; by auto | intros [?|[?|?]]; by auto].
Qed.

(** X6. The constructor returns an object exactly when the hint flags are
    consistent, a dummy trajectory is supplied and each of its input, hint
    and output fields has at least one axis (so that [shape[-1]] exists). *)
Theorem construct_returns_iff
    (create_net_fns : Spec → bool → bool → gmap string nat → Z → bool → string → bool →
                      Float → Z → nets.Transformed)
    (spec : Spec) (nb_heads hidden_dim : Z) (kind : string)
    (encode_hints decode_hints decode_diffs use_lstm : bool) (learning_rate : Float)
    (checkpoint_path : string) (freeze_processor : bool)
    (dummy_trajectory : option (samplers.Feedback samplers.Features))
    (dropout_prob : Float) (name : string) :
  (∃ self,
     BaselineModel.construct create_net_fns spec nb_heads hidden_dim kind
       encode_hints decode_hints decode_diffs use_lstm learning_rate checkpoint_path
       freeze_processor dummy_trajectory dropout_prob name = Ok self)
  ↔ (encode_hints = true → decode_hints = true)
    ∧ ∃ dummy, dummy_trajectory = Some dummy
        ∧ Forall (λ dp, shape (probing.data dp) ≠ [])
            (samplers.inputs (samplers.features dummy)
             ++ samplers.hints (samplers.features dummy)
             ++ samplers.outputs dummy).
Proof.
  unfold BaselineModel.construct. simpl.
  destruct (encode_hints && negb decode_hints) eqn:Hflags.
  { split; [by intros [? ?] |]. intros [Hok _].
    destruct encode_hints, decode_hints; simpl in Hflags; try done. by specialize (Hok eq_refl). }
  assert (Hok : encode_hints = true → decode_hints = true)
    by (by destruct encode_hints, decode_hints).
  destruct dummy_trajectory as [dummy|]; simpl.
  2:{ split; [by intros [? ?] | by intros (_ & ? & ? & _)]. }
  split.
  - intros [self Hself]. split; [done |]. exists dummy. split; [done |].
    apply bind_Ok_inv in Hself as (d1 & Hd1 & Hself).
    apply bind_Ok_inv in Hself as (d2 & Hd2 & Hself).
    apply bind_Ok_inv in Hself as (d3 & Hd3 & Hself).
    apply (record_dims_returns_iff ∅). exists d3.
    rewrite record_dims_app, Hd1. simpl. by rewrite record_dims_app, Hd2.
  - intros (_ & dummy' & [= <-] & Hfields).
    apply (record_dims_returns_iff ∅) in Hfields as [d3 Hd3].
    rewrite record_dims_app in Hd3.
    apply bind_Ok_inv in Hd3 as (d1 & Hd1 & Hd3).
    rewrite record_dims_app in Hd3.
    apply bind_Ok_inv in Hd3 as (d2 & Hd2 & Hd3).
    rewrite Hd1. simpl. rewrite Hd2. simpl. rewrite Hd3. simpl. by eauto.
Qed.

(** X7. The object the constructor returns holds no parameters, no
    optimizer state and no recurrent state. Its feature dimensions table
    has an entry for exactly the names of the dummy trajectory's fields,
    and the entry of a name is the trailing dimension of the last field of
    that name among the inputs, then the hints, then the outputs. *)
Theorem constructed_object_contents
    (create_net_fns : Spec → bool → bool → gmap string nat → Z → bool → string → bool →
                      Float → Z → nets.Transformed)
    (spec : Spec) (nb_heads hidden_dim : Z) (kind : string)
    (encode_hints decode_hints decode_diffs use_lstm : bool) (learning_rate : Float)
    (checkpoint_path : string) (freeze_processor : bool)
    (dummy : samplers.Feedback samplers.Features)
    (dropout_prob : Float) (name : string) (self : Self) :
  BaselineModel.construct create_net_fns spec nb_heads hidden_dim kind
    encode_hints decode_hints decode_diffs use_lstm learning_rate checkpoint_path
    freeze_processor (Some dummy) dropout_prob name = Ok self →
  let fields :=
    samplers.inputs (samplers.features dummy)
    ++ samplers.hints (samplers.features dummy)
    ++ samplers.outputs dummy in
  params self = None ∧ opt_state self = None ∧ mp_state self = None
  ∧ (∀ key, is_Some (nb_dims self !! key) ↔ key ∈ probing.name <$> fields)
  ∧ (∀ pre dp post,
       fields = pre ++ dp :: post → probing.name dp ∉ probing.name <$> post →
       nb_dims self !! probing.name dp = last (shape (probing.data dp))).
Proof.
  intros Hself fields. unfold BaselineModel.construct in Hself. simpl in Hself.
  destruct (encode_hints && negb decode_hints); [done |]. simpl in Hself.
  apply bind_Ok_inv in Hself as (d1 & Hd1 & Hself).
  apply bind_Ok_inv in Hself as (d2 & Hd2 & Hself).
  apply bind_Ok_inv in Hself as (d3 & Hd3 & [= <-]). simpl.
  assert (Hall : record_dims ∅ fields = Ok d3).
  { unfold fields. rewrite record_dims_app. simpl. rewrite Hd1. simpl.
    rewrite record_dims_app. simpl. by rewrite Hd2. }
  destruct (record_dims_lookup _ _ _ Hall) as [Hfresh Hlastwins].
  assert (Hfields : Forall (λ dp, shape (probing.data dp) ≠ []) fields)
    by (apply (record_dims_returns_iff ∅); by eauto).
  repeat split; try done.
  - intros Hsome. apply (record_dims_names _ _ _ Hall) in Hsome as [Hsome|Hkey]; [|done].
    rewrite lookup_empty in Hsome. by destruct Hsome.
  - intros Hkey. apply (record_dims_names _ _ _ Hall). by right.
Qed.

End construction_contents.

(** ** The verbose loss *)

Section verbose_loss.
Context `{Backend}.
Context `{!Provider, !Losses, !Optimizer, !Pickle}.

Lemma dict_update_many_keys {A} (breakdown : A → gmap string Scalar) (xs : list A)
    (losses_ : gmap string Scalar) :
  dom (foldl (λ losses_ x, BaselineModel.dict_update losses_ (breakdown x)) losses_ xs) =
  dom losses_ ∪ ⋃ ((dom ∘ breakdown) <$> xs).
Proof.
  revert losses_. induction xs as [|x xs IH]; intros losses_; simpl.
  - by rewrite (right_id_L ∅ _).
  - rewrite IH. unfold BaselineModel.dict_update.
    by rewrite dom_union_L, (comm_L _ (dom (breakdown x))), (assoc_L _).
Qed.

Lemma dict_update_many_last {A} (breakdown : A → gmap string Scalar) (pre post : list A)
    (x : A) (losses_ : gmap string Scalar) (key : string) (value : Scalar) :
  breakdown x !! key = Some value →
  Forall (λ later, breakdown later !! key = None) post →
  foldl (λ losses_ x, BaselineModel.dict_update losses_ (breakdown x)) losses_
    (pre ++ x :: post) !! key = Some value.
Proof.
  intros Hx Hpost. rewrite foldl_app. simpl.
  generalize (foldl (λ losses_ x, BaselineModel.dict_update losses_ (breakdown x))
                losses_ pre).
  intros before.
  assert (Hstart : BaselineModel.dict_update before (breakdown x) !! key = Some value).
  { unfold BaselineModel.dict_update. by rewrite lookup_union, Hx, union_Some_l. }
  revert Hstart. generalize (BaselineModel.dict_update before (breakdown x)).
  induction Hpost as [|later post Hlater _ IH]; intros acc Hacc; simpl; [done |].
  apply IH. unfold BaselineModel.dict_update.
  by rewrite lookup_union, Hlater, (left_id_L None _).
Qed.

(** X8. [verbose_loss] needs the node count even when it reports nothing:
    it raises what node-count inference raises. Otherwise it returns a
    breakdown whose keys are those of the diff breakdown (under
    [decode_diffs]) and of the hint breakdowns of all hint fields (under
    [decode_hints]) -- no output-loss term, and nothing at all with both
    flags off -- and where several breakdowns share a key the last hint
    field that reports it wins. *)
Theorem verbose_loss_breakdown (self : Self)
    (feedback : samplers.Feedback samplers.Features)
    (hint_preds : list (gmap string Tensor)) (diff_logits : DiffLogits) (gt_diffs : GtDiffs) :
  let lengths := samplers.lengths (samplers.features feedback) in
  let hint_fields := samplers.hints (samplers.features feedback) in
  (∀ e, _nb_nodes feedback false = Raise e →
        BaselineModel.verbose_loss self feedback (hint_preds, diff_logits, gt_diffs) = Raise e)
  ∧ (∀ nb_nodes, _nb_nodes feedback false = Ok nb_nodes →
       let hint_breakdown := λ truth,
         hint_loss_verbose truth hint_preds gt_diffs lengths nb_nodes (decode_diffs self) in
       ∃ losses_,
         BaselineModel.verbose_loss self feedback (hint_preds, diff_logits, gt_diffs) =
           Ok losses_
         ∧ dom losses_ =
             (if decode_diffs self
              then dom (diff_loss_verbose diff_logits gt_diffs lengths) else ∅)
             ∪ (if decode_hints self
                then ⋃ ((dom ∘ hint_breakdown) <$> hint_fields) else ∅)
         ∧ (decode_hints self = true →
            ∀ pre truth post key value,
              hint_fields = pre ++ truth :: post →
              hint_breakdown truth !! key = Some value →
              Forall (λ later, hint_breakdown later !! key = None) post →
              losses_ !! key = Some value)).
Proof.
  intros lengths hint_fields. unfold BaselineModel.verbose_loss. split.
  - intros e ->. done.
  - intros nb_nodes Hnb. rewrite Hnb. simpl. eexists. split; [done |].
    set (hint_breakdown := λ truth,
      hint_loss_verbose truth hint_preds gt_diffs lengths nb_nodes (decode_diffs self)).
    fold lengths. fold hint_fields. split.
    + destruct (decode_hints self), (decode_diffs self);
        rewrite ?(dict_update_many_keys hint_breakdown);
        unfold BaselineModel.dict_update;
        rewrite ?dom_union_L, ?dom_empty_L, ?(left_id_L ∅ _), ?(right_id_L ∅ _); done.
    + intros Hon pre truth post key value Hsplit Hkey Hpost. rewrite Hon.
      unfold hint_fields in Hsplit. simpl in Hsplit. rewrite Hsplit.
      by apply (dict_update_many_last hint_breakdown).
Qed.

End verbose_loss.

(** ** More on checkpoints *)

Section checkpoint_files.
Context `{Backend}.
Context `{!Provider, !Losses, !Optimizer, !Pickle}.

(** X9. A restore merges into what the model holds: when it returns, no
    parameter held before is gone; with the processor-only flag unset each
    parameter takes the checkpoint's value where the checkpoint has one
    and keeps its own where it has none; and the recurrent state of a
    chunked model, the checkpoint directory and the flags are untouched. *)
Theorem restore_merges_into_held (self self' : Self) (file_name : string)
    (only_load_processor : bool) (fs : os.FileSystem) :
  BaselineModel.restore_model self file_name only_load_processor fs = Ok self' →
  ∃ held held' blob restored saved_opt_state,
    params self = Some held ∧ params self' = Some held'
    ∧ os.read_file fs (os_path_join (checkpoint_path self) file_name) = Ok blob
    ∧ pickle_load blob = Ok (Some restored, saved_opt_state)
    ∧ (∀ m n, is_Some (hk.leaf held m n) → is_Some (hk.leaf held' m n))
    ∧ (only_load_processor = false →
       ∀ m n, hk.leaf held' m n =
              match hk.leaf restored m n with
              | Some v => Some v
              | None => hk.leaf held m n
              end)
    ∧ mp_state self' = mp_state self
    ∧ checkpoint_path self' = checkpoint_path self
    ∧ _freeze_processor self' = _freeze_processor self.
Proof.
  intros Hrestore.
  apply restore_model_Ok_iff in Hrestore
    as (blob & restored & saved_opt_state & held & Hblob & Hload & Hheld & ->).
  eexists held, _, blob, restored, saved_opt_state.
  repeat split; try done.
  - intros m n [v Hv]. rewrite leaf_merge, Hv.
    destruct (hk.leaf (if only_load_processor then _ else _) m n); by eexists.
  - intros -> m n. by rewrite leaf_merge.
Qed.



End checkpoint_files.

(** ** More on the chunked model *)

Section chunked_lifecycle.
Context `{Backend}.
Context `{!Provider, !Losses, !Optimizer, !Pickle}.

Lemma construct_holds_nothing
    (create_net_fns : Spec → bool → bool → gmap string nat → Z → bool → string → bool →
                      Float → Z → nets.Transformed)
    (spec : Spec) (nb_heads hidden_dim : Z) (kind : string)
    (encode_hints decode_hints decode_diffs use_lstm : bool) (learning_rate : Float)
    (checkpoint_path : string) (freeze_processor : bool)
    (dummy_trajectory : option (samplers.Feedback samplers.Features))
    (dropout_prob : Float) (name : string) (self : Self) :
  BaselineModel.construct create_net_fns spec nb_heads hidden_dim kind
    encode_hints decode_hints decode_diffs use_lstm learning_rate checkpoint_path
    freeze_processor dummy_trajectory dropout_prob name = Ok self →
  params self = None ∧ opt_state self = None ∧ mp_state self = None.
Proof.
  unfold BaselineModel.construct. simpl.
  destruct (encode_hints && negb decode_hints); [done |].
  intros Hself. repeat (apply bind_Ok_inv in Hself as (? & _ & Hself)).
  by injection Hself as <-.
Qed.



End chunked_lifecycle.

(** ** [_is_not_done_broadcast] *)

Section broadcast_properties.
Import Equations.Prop.Equations.

Lemma expand_to_rank_spec (is_not_done tensor : jnp.ndarray) :
  jnp.shape (expand_to_rank is_not_done tensor) =
    jnp.shape is_not_done
    ++ replicate (length (jnp.shape tensor) - length (jnp.shape is_not_done)) 1
  ∧ jnp.data (expand_to_rank is_not_done tensor) = jnp.data is_not_done.
Proof.
  funelim (expand_to_rank is_not_done tensor).
  - destruct H as [Hshape Hdata]. split; [|exact Hdata].
    rewrite Hshape. simpl. rewrite length_app. simpl.
    replace (length (jnp.shape tensor) - length (jnp.shape is_not_done))
      with (S (length (jnp.shape tensor) - (length (jnp.shape is_not_done) + 1))) by lia.
    by rewrite <- app_assoc.
  - split; [|done].
    replace (length (jnp.shape tensor) - length (jnp.shape is_not_done)) with 0 by lia.
    by rewrite app_nil_r.
Qed.


End broadcast_properties.

(** ** Runs of the further properties on the small backend *)

Section further_examples.
Import Toy.

(** A run of X2: the updates are [toy_params] itself; the processor
    parameter moves from 1 to 2, the encoder parameter stays at 10. *)
Lemma frozen_update_moves_processor_only_witness :
  BaselineModel._update_params (initialised true false true) toy_params toy_params 0 =
    Ok (updated_frozen, 1)
  ∧ hk.leaf updated_frozen "net/encoder" "w" = hk.leaf toy_params "net/encoder" "w"
  ∧ hk.leaf updated_frozen "net/construct_processor" "w" =
      Some (tensor_add (scalar_tensor 1) (scalar_tensor 1)).
Proof.
  assert (Hstep : BaselineModel._update_params (initialised true false true)
                    toy_params toy_params 0 = Ok (updated_frozen, 1)) by by_computation.
  split; [exact Hstep |].
  destruct (frozen_update_moves_processor_only (initialised true false true)
              toy_params toy_params updated_frozen 0 1 eq_refl Hstep) as [Hother Hproc].
  split.
  - apply Hother. by_computation.
  - apply Hproc; by_computation.
Defined.

(** A run of X4: two frozen training steps leave the encoder parameter at
    its initial value. *)
Lemma frozen_training_keeps_other_parameters_witness :
  feedback_many (initialised true false true) two_steps = Ok trained_twice
  ∧ (held ← params trained_twice; hk.leaf held "net/encoder" "w") =
    (held ← params (initialised true false true); hk.leaf held "net/encoder" "w").
Proof.
  assert (Htrain : feedback_many (initialised true false true) two_steps = Ok trained_twice)
    by by_computation.
  split; [exact Htrain |].
  destruct (frozen_training_keeps_other_parameters two_steps
              (initialised true false true) trained_twice eq_refl Htrain)
    as (_ & Hother & _).
  apply Hother. by_computation.
Defined.

(** A run of X5: the node field has one axis only; the edge field after it
    is not consulted. *)
Lemma nb_nodes_raises_on_short_first_field_witness :
  _nb_nodes short_feedback false = Raise IndexError.
Proof.
  apply (nb_nodes_raises_on_short_first_field short_feedback false
           [field "g" specs.GRAPH [4; 3]] [field "A" specs.EDGE [4; 5; 5]]
           (field "pos" specs.NODE [4])).
  - reflexivity.
  - repeat constructor. by apply (bool_decide_unpack _).
  - by apply (bool_decide_unpack _).
  - simpl. lia.
Defined.

(** A run of X7: the table of the toy model has the trailing dimension of
    the edge field ["A"]. *)
Lemma constructed_object_contents_witness :
  params (constructed false true false false) = None
  ∧ nb_dims (constructed false true false false) !! "A" = Some 5.
Proof.
  destruct (constructed_object_contents (H:=backend) BaselineModel._create_net_fns () 1%Z 32%Z "mpnn"
              false true false false 5%Z "/tmp/clrs3" false toy_feedback 0%Z "base_model"
              (constructed false true false false))
    as (Hparams & _ & _ & _ & Hlast); [by_computation |].
  split; [exact Hparams |].
  apply (Hlast [field "g" specs.GRAPH [4; 3]; field "pos" specs.NODE [4; 5]]
           (field "A" specs.EDGE [4; 5; 5])
           [field "h" specs.NODE [7; 4; 5]; field "out" specs.NODE [4; 5]]).
  - reflexivity.
  - by apply (bool_decide_unpack _).
Defined.

(** A run of X9: a full restore into [fresh]. *)
Lemma restore_merges_into_held_witness :
  BaselineModel.restore_model fresh "best.pkl" false saved_fs = Ok restored_full
  ∧ mp_state restored_full = mp_state fresh.
Proof.
  assert (Hrestore : BaselineModel.restore_model fresh "best.pkl" false saved_fs =
                     Ok restored_full) by by_computation.
  split; [exact Hrestore |].
  destruct (restore_merges_into_held _ _ _ _ _ Hrestore)
    as (? & ? & ? & ? & ? & _ & _ & _ & _ & _ & _ & Hmp & _).
  exact Hmp.
Defined.




(** A run of X1: the processor parameter of [toy_params] is kept. *)
Lemma filter_processor_selects_by_substring_witness :
  hk.leaf (_filter_processor toy_params) "net/construct_processor" "w" =
  Some (scalar_tensor 1).
Proof.
  destruct (filter_processor_selects_by_substring (H:=backend) toy_params) as [Hkeeps _].
  apply Hkeeps. split; [by_computation |]. by exists "net/", "".
Defined.

(** A run of X3: an unfrozen step keeps the encoder parameter present and
    hands back the optimizer's state. *)
Lemma update_params_keeps_parameter_set_witness :
  BaselineModel._update_params (initialised true false false) toy_params toy_params 0 =
    Ok (<[ "net/encoder" := {[ "w" := scalar_tensor 20 ]} ]> updated_frozen, 1)
  ∧ is_Some (hk.leaf (<[ "net/encoder" := {[ "w" := scalar_tensor 20 ]} ]> updated_frozen)
               "net/encoder" "w").
Proof.
  assert (Hstep : BaselineModel._update_params (initialised true false false)
                    toy_params toy_params 0 =
                  Ok (<[ "net/encoder" := {[ "w" := scalar_tensor 20 ]} ]> updated_frozen, 1))
    by by_computation.
  split; [exact Hstep |].
  destruct (update_params_keeps_parameter_set (initialised true false false)
              toy_params toy_params 0) as [Hreturns _].
  destruct (Hreturns _ _ Hstep) as (_ & Hpresent & _).
  apply Hpresent. exists (scalar_tensor 10). by_computation.
Defined.

(** A run of X6: the toy constructor call returns. *)
Lemma construct_returns_iff_witness :
  ∃ self, construct_toy BaselineModel._create_net_fns true false false = Ok self.
Proof.
  apply (construct_returns_iff (H:=backend) BaselineModel._create_net_fns () 1%Z 32%Z "mpnn"
           false true false false 5%Z "/tmp/clrs3" false (Some toy_feedback) 0%Z
           "base_model").
  split; [done |]. exists toy_feedback. split; [done |].
  repeat constructor; discriminate.
Defined.

(** A run of X8: with [decode_hints] alone set, the toy breakdowns being
    empty, the verbose loss returns a mapping without keys. *)
Lemma verbose_loss_breakdown_witness :
  ∃ losses_,
    BaselineModel.verbose_loss (initialised true false false) toy_feedback
      ([], (), ()) = Ok losses_
    ∧ dom losses_ = ∅.
Proof.
  destruct (verbose_loss_breakdown (H:=backend) (initialised true false false) toy_feedback
              [] () ())
    as [_ Hreturns].
  destruct (Hreturns 5) as (losses_ & Hok & Hdom & _); [by_computation |].
  exists losses_. split; [exact Hok |]. rewrite Hdom. by_computation.
Defined.



End further_examples.
